(** * Map-reduce PDF summarizer: a shallow embedding of [app.py] and [prompts.py]

    The Streamlit script is modelled as a computation in a small monad that
    threads the state the script can change (the outside world reached through
    the PDF extractor and the chat-completion client, and Streamlit's
    [st.session_state]), emits the calls it makes on the outside as a
    chronological list of events, and either returns a value or raises a
    Python exception. *)

From Stdlib Require Import Ascii String QArith.
From stdpp Require Import gmap strings list sorting.

Open Scope Z_scope.

(** ** Python values used by the script *)

(** A raised exception: its class name, [str(e)], and whether it is an
    instance of [Exception], the class every [except] clause of the script
    names.  [KeyboardInterrupt] and [SystemExit] are exceptions that are
    not: an [except Exception] lets them through. *)
Record exn := Exn {
  exn_type : string;
  exn_msg : string;
  exn_is_Exception : bool
}.

(** The outcome of evaluating an expression: raised or returned. *)
Inductive result (A : Type) :=
| Raised (e : exn)
| Returned (a : A).
Arguments Raised {A} e.
Arguments Returned {A} a.

(** [pages]: the dict returned by [extract_pages_text], page number to page
    text.  A Python dict iterates in insertion order, so it is kept as the
    list of its items in that order. *)
Definition pageset := list (Z * string).

(** ** prompts.py *)

Definition SYS_MESSAGE_RESEARCH : string := "
You are a full professor at the prestigious Massachusetts Institute of Technology. You have mastered the skill of reading academic research articles and excell at summarizing their general ideas in simple English.
".

Definition MAP_PROMPT_RESEARCH : string := "
Article Page:
```{text}```

Instructions:
Your task is to generate a summary of the provided `Article Page` of an academic research article.
Summarize the provided page, delimited by triple backticks, in at most {max_words} words.
Be detailed and specific when writting your page summary.

Page Summary:
".

Definition REDUCE_PROMPT_RESEARCH : string := "
Page Summaries:
```
{text}
```

Output Format:
# Title

## Category:
[What type of paper is this? An empirical paper? An analysis of an existing system? A description of a research prototype? A theoretical paper?]

## Context:
[Which other specific papers is it related to? Which theoretical bases were used to analyze the problem?]

## Correctness:
[Do the assumptions appear to be valid? Appear any of the assumptions to be problematic?]

## Contributions:
[What are the paper's main contributions? What is the novelty?]

## Clarity:
[Is the paper well written?]

Instructions:
You are provided with `Page Summaries` of an academic research article delimited by triple back ticks. Your task is to write a final, coherent summary of the article in at most {max_words} words.
The final summary must answer the five C's (Category, Context, Correctness, Contributions, Clarity) in the provided `Output Format`.
Be detailed and specific when writting your final summary. Remember, to only provide the final summary according to the `Output Format`.
".

(** ** Python string operations used by [generate_reduce_summary] *)

Definition newline : ascii := ascii_of_nat 10.
Definition NL : string := String newline EmptyString.
Definition NLNL : string := String newline (String newline EmptyString).

(** [sep.join(l)] *)
Fixpoint join (sep : string) (l : list string) : string :=
  match l with
  | [] => EmptyString
  | [x] => x
  | x :: rest => x +:+ sep +:+ join sep rest
  end.

(** [s.replace(old, new)] for a non-empty [old]: scan from the left; where
    [old] starts, emit [new] and jump over it, otherwise copy one character.
    [skip] counts the characters of a matched [old] still to jump over. *)
Fixpoint replace_from (old new : string) (skip : nat) (s : string) : string :=
  match s with
  | EmptyString => EmptyString
  | String c rest =>
      match skip with
      | S k => replace_from old new k rest
      | O =>
          if String.prefix old s
          then new +:+ replace_from old new (String.length old - 1) rest
          else String c (replace_from old new 0 rest)
      end
  end.

(** For the empty [old] Python puts [new] before every character and at
    the end. *)
Fixpoint intersperse_all (new s : string) : string :=
  match s with
  | EmptyString => new
  | String c rest => new +:+ String c (intersperse_all new rest)
  end.

Definition replace (old new s : string) : string :=
  match old with
  | EmptyString => intersperse_all new s
  | _ => replace_from old new 0 s
  end.

(** Line 124: ["\n".join(map_summaries).replace("\n\n", "")]. *)
Definition reduce_text (map_summaries : list string) : string :=
  replace NLNL "" (join NL map_summaries).

(** ** Events: what the script does to the outside *)

Inductive loglevel := INFO | ERROR.

(** Arguments of a logging record: [logging] keeps the format string and
    its arguments apart. *)
Inductive logarg :=
| ArgInt (n : Z)
| ArgStr (s : string)
| ArgExn (e : exn).

Inductive status_kind := StInfo | StSuccess | StError.

Inductive event :=
| EvWriteFile (path data : string)
| EvExtract (pdf_path : string) (start_page end_page : Z)
| EvBuildPrompt (template text : string) (max_words : Z)
| EvChat (prompt sys_message model : string) (max_tokens : option Z)
         (response : result string)
| EvLog (level : loglevel) (fmt : string) (args : list logarg)
| EvNewProgressBar (value : Q)
| EvProgress (value : Q)
| EvStatus (kind : status_kind) (body : string).

(** ** Script state, and the monad *)

(** [world] is whatever the external services depend on and change (the
    file system, the model service); [session] is [st.session_state]. *)
Record state (World : Type) := State {
  world : World;
  session : gmap string (option string)
}.
Arguments State {World} world session.
Arguments world {World} s.
Arguments session {World} s.

Record outcome (World A : Type) := Outcome {
  res : result A;
  st : state World;
  evs : list event
}.
Arguments Outcome {World A} res st evs.
Arguments res {World A} o.
Arguments st {World A} o.
Arguments evs {World A} o.

Definition py (World A : Type) : Type := state World → outcome World A.

Section Monad.
Context {World : Type}.

Definition ret {A} (a : A) : py World A :=
  λ s, Outcome (Returned a) s [].

Definition raise {A} (e : exn) : py World A :=
  λ s, Outcome (Raised e) s [].

Definition bind {A B} (k : A → py World B) (m : py World A) : py World B :=
  λ s,
    let o := m s in
    match res o with
    | Raised e => Outcome (Raised e) (st o) (evs o)
    | Returned a =>
        let o' := k a (st o) in
        Outcome (res o') (st o') (evs o ++ evs o')
    end.

(** [try: m except Exception as e: h e]: the handler runs for the
    instances of [Exception] only, any other exception goes on. *)
Definition try_except {A} (m : py World A) (h : exn → py World A) : py World A :=
  λ s,
    let o := m s in
    match res o with
    | Raised e =>
        if exn_is_Exception e then
          let o' := h e (st o) in
          Outcome (res o') (st o') (evs o ++ evs o')
        else o
    | Returned a => o
    end.

Definition emit (ev : event) : py World unit :=
  λ s, Outcome (Returned tt) s [ev].

Definition of_result {A} (r : result A) : py World A :=
  match r with
  | Raised e => raise e
  | Returned a => ret a
  end.
End Monad.

#[global] Instance py_ret {World} : MRet (py World) := @ret World.
#[global] Instance py_bind {World} : MBind (py World) := @bind World.

(** ** Python arithmetic *)

Definition ZeroDivisionError : exn :=
  Exn "ZeroDivisionError" "division by zero" true.

(** [a / b] on ints: true division.  The quotient is kept as the exact
    rational in lowest terms, of which the Python float is the correctly
    rounded image (rounding fixes 0 and 1 and is monotone). *)
Definition py_truediv (a b : Z) : result Q :=
  if decide (b = 0) then Raised ZeroDivisionError
  else Returned (Qred (inject_Z a / inject_Z b)).

(** ** External collaborators and widget values *)

(** What [genaipy] provides: the three General-mode constants of
    [genaipy.prompts.generate_summaries], [build_prompt] (which formats the
    template with [text] and [max_words] and returns the prompt),
    [extract_pages_text] and [get_chat_response]; the last two depend on and
    change the outside world and may raise.  [write_file] is the [open]
    and [write] of lines 150-151, which change the world and may raise
    too. *)
Record services (World : Type) := Services {
  DEFAULT_SYS_MESSAGE : string;
  SUMMARY_PROMPT_TPL : string;
  REDUCE_SUMMARY_PROMPT_TPL : string;
  build_prompt : string → string → Z → string;
  extract_pages_text : string → Z → Z → World → result pageset * World;
  get_chat_response :
    string → string → string → option Z → World → result string * World;
  write_file : string → string → World → result unit * World
}.
Arguments Services {World}.
Arguments DEFAULT_SYS_MESSAGE {World} _.
Arguments SUMMARY_PROMPT_TPL {World} _.
Arguments REDUCE_SUMMARY_PROMPT_TPL {World} _.
Arguments build_prompt {World} _ _ _ _.
Arguments extract_pages_text {World} _ _ _ _ _.
Arguments get_chat_response {World} _ _ _ _ _ _.
Arguments write_file {World} _ _ _ _.

Inductive mode := General | Research.

Definition mode_name (m : mode) : string :=
  match m with General => "General" | Research => "Research" end.

(** The values the widgets hand to one execution of the script. *)
Record widgets := Widgets {
  selected_mode : mode;
  user_map_words : Z;
  user_reduce_words : Z;
  uploaded_file : option string;
  user_start_page : Z;
  user_end_page : Z;
  generate_clicked : bool
}.

Record mode_setting := ModeSetting {
  sys_message : string;
  map_prompt_tpl : string;
  reduce_prompt_tpl : string
}.

Section Script.
Context {World : Type} (svc : services World) (ui : widgets).

(** Lines 25-36. *)
Definition mode_settings (m : mode) : mode_setting :=
  match m with
  | General =>
      ModeSetting (DEFAULT_SYS_MESSAGE svc) (SUMMARY_PROMPT_TPL svc)
                  (REDUCE_SUMMARY_PROMPT_TPL svc)
  | Research =>
      ModeSetting SYS_MESSAGE_RESEARCH MAP_PROMPT_RESEARCH
                  REDUCE_PROMPT_RESEARCH
  end.

(** Lines 57-59. *)
Definition user_system_message : string :=
  sys_message (mode_settings (selected_mode ui)).
Definition map_prompt_template : string :=
  map_prompt_tpl (mode_settings (selected_mode ui)).
Definition reduce_prompt_template : string :=
  reduce_prompt_tpl (mode_settings (selected_mode ui)).

(** *** Primitive actions *)

Definition logging (level : loglevel) (fmt : string) (args : list logarg)
  : py World unit :=
  emit (EvLog level fmt args).

Definition call_build_prompt (template text : string) (max_words : Z)
  : py World string :=
  λ s, Outcome (Returned (build_prompt svc template text max_words)) s
               [EvBuildPrompt template text max_words].

Definition call_extract_pages_text (pdf_path : string) (start_page end_page : Z)
  : py World pageset :=
  λ s,
    let r := extract_pages_text svc pdf_path start_page end_page (world s) in
    Outcome (fst r) (State (snd r) (session s))
            [EvExtract pdf_path start_page end_page].

Definition call_get_chat_response
    (prompt sys_msg model : string) (max_tokens : option Z)
  : py World string :=
  λ s,
    let r := get_chat_response svc prompt sys_msg model max_tokens (world s) in
    Outcome (fst r) (State (snd r) (session s))
            [EvChat prompt sys_msg model max_tokens (fst r)].

Definition call_write_file (path data : string) : py World unit :=
  λ s,
    let r := write_file svc path data (world s) in
    Outcome (fst r) (State (snd r) (session s)) [EvWriteFile path data].

Definition session_setitem (key : string) (v : option string) : py World unit :=
  λ s, Outcome (Returned tt) (State (world s) (<[key := v]> (session s))) [].

(** *** Lines 83-93 *)
Definition process_pdf (full_path : string) (start_page end_page : Z)
  : py World pageset :=
  try_except
    (pages ← call_extract_pages_text full_path start_page end_page;
     logging INFO "Successfully loaded text from %d PDF pages."
             [ArgInt (Z.of_nat (length pages))];;
     mret pages)
    (λ e,
       logging ERROR "An error occurred while processing PDF: %s" [ArgExn e];;
       raise e).

(** *** Lines 96-119 *)

(** The body of the loop for the item at index [i]. *)
Definition map_page (total_pages i : nat) (page : Z) (content : string)
    (map_summaries : list string) : py World (list string) :=
  try_except
    (map_prompt ← call_build_prompt MAP_PROMPT_RESEARCH content
                                    (user_map_words ui);
     summary ← call_get_chat_response map_prompt user_system_message
                                      "gpt-3.5-turbo" None;
     let map_summaries := map_summaries ++ [summary] in
     logging INFO "Map Summary #%d: %s" [ArgInt page; ArgStr summary];;
     value ← of_result (py_truediv (Z.of_nat i + 1) (Z.of_nat total_pages));
     emit (EvProgress value);;
     mret map_summaries)
    (λ e,
       logging ERROR "An error occurred while generating summary #%d: %s"
               [ArgInt page; ArgExn e];;
       raise e).

Fixpoint map_loop (total_pages i : nat) (items : pageset)
    (map_summaries : list string) : py World (list string) :=
  match items with
  | [] => mret map_summaries
  | (page, content) :: rest =>
      map_summaries ← map_page total_pages i page content map_summaries;
      map_loop total_pages (S i) rest map_summaries
  end.

Definition generate_map_summaries (pages : pageset) : py World (list string) :=
  let total_pages := length pages in
  map_loop total_pages 0 pages [].

(** *** Lines 122-139 *)
Definition generate_reduce_summary (map_summaries : list string)
  : py World string :=
  let text := reduce_text map_summaries in
  try_except
    (reduce_prompt ← call_build_prompt REDUCE_PROMPT_RESEARCH text
                                       (user_reduce_words ui);
     final_summary ← call_get_chat_response reduce_prompt user_system_message
                                            "gpt-4-1106-preview" (Some 1024);
     logging INFO "Completed final reduce summary!" [];;
     mret final_summary)
    (λ e,
       logging ERROR "An error occurred while generating final summary: %s"
               [ArgExn e];;
       raise e).

(** *** Lines 142-166 *)

Definition TEMP_PDF_PATH : string := "temp.pdf".

(** The body of the [try] of lines 157-164. *)
Definition pipeline : py World unit :=
  temp_pages ← process_pdf TEMP_PDF_PATH (user_start_page ui) (user_end_page ui);
  emit (EvStatus StInfo "Step 1: Generating map summaries...");;
  temp_map_summaries ← generate_map_summaries temp_pages;
  emit (EvStatus StInfo "Step 2: Generating final summary...");;
  final_summary ← generate_reduce_summary temp_map_summaries;
  session_setitem "final_summary" (Some final_summary);;
  emit (EvStatus StSuccess "Summary generation completed successfully!").

(** Lines 42-43. *)
Definition init_session : py World unit :=
  λ s,
    match session s !! "final_summary" with
    | Some _ => ret tt s
    | None => session_setitem "final_summary" None s
    end.

(** One execution of the script, up to the display of the stored
    summary. *)
Definition script : py World unit :=
  init_session;;
  logging INFO "%s mode-specific prompts have been initialized."
          [ArgStr (mode_name (selected_mode ui))];;
  match generate_clicked ui, uploaded_file ui with
  | true, Some data =>
      call_write_file TEMP_PDF_PATH data;;
      emit (EvNewProgressBar 0);;
      try_except pipeline
        (λ err, emit (EvStatus StError ("An error occurred: " +:+ exn_msg err)))
  | _, _ => mret tt
  end.
End Script.

(** ** Reading a trace *)

Definition chat_response (ev : event) : option (result string) :=
  match ev with
  | EvChat _ _ _ _ r => Some r
  | _ => None
  end.

Definition progress_value (ev : event) : option Q :=
  match ev with
  | EvProgress v => Some v
  | _ => None
  end.

Definition prompt_template (ev : event) : option string :=
  match ev with
  | EvBuildPrompt template _ _ => Some template
  | _ => None
  end.

Definition prompt_text (ev : event) : option string :=
  match ev with
  | EvBuildPrompt _ text _ => Some text
  | _ => None
  end.

(** The page number and summary of a ["Map Summary #%d: %s"] record. *)
Definition logged_summary (ev : event) : option (Z * string) :=
  match ev with
  | EvLog INFO fmt [ArgInt page; ArgStr summary] =>
      if decide (fmt = "Map Summary #%d: %s") then Some (page, summary)
      else None
  | _ => None
  end.

Definition is_returned {A} (r : result A) : bool :=
  match r with
  | Returned _ => true
  | Raised _ => false
  end.

(** The responses of the completion calls of a trace, in call order. *)
Definition chat_responses (t : list event) : list (result string) :=
  omap chat_response t.

Definition progress_values (t : list event) : list Q :=
  omap progress_value t.

Definition prompt_templates (t : list event) : list string :=
  omap prompt_template t.

Definition logged_summaries (t : list event) : list (Z * string) :=
  omap logged_summary t.

(** An event of the Reduce Stage: a prompt built from the reduce template,
    or a completion call to the reduce model. *)
Definition is_reduce_event (ev : event) : bool :=
  match ev with
  | EvBuildPrompt template _ _ => bool_decide (template = REDUCE_PROMPT_RESEARCH)
  | EvChat _ _ model _ _ => bool_decide (model = "gpt-4-1106-preview")
  | _ => false
  end.

(** The progress fraction after the page at index [i] of [total_pages]. *)
Definition fraction (i total_pages : nat) : Q :=
  Qred (inject_Z (Z.of_nat i + 1) / inject_Z (Z.of_nat total_pages)).

(** ** The events of one pass of the Map Stage loop *)

Section MapTraceDefs.
Context {World : Type} (svc : services World) (ui : widgets).

Definition map_prompt_of (content : string) : string :=
  build_prompt svc MAP_PROMPT_RESEARCH content (user_map_words ui).

Definition page_call_events (content : string) (r : result string)
  : list event :=
  [EvBuildPrompt MAP_PROMPT_RESEARCH content (user_map_words ui);
   EvChat (map_prompt_of content) (user_system_message svc ui)
          "gpt-3.5-turbo" None r].

Definition page_done_events (total_pages i : nat) (page : Z)
    (content summary : string) : list event :=
  page_call_events content (Returned summary) ++
  [EvLog INFO "Map Summary #%d: %s" [ArgInt page; ArgStr summary];
   EvProgress (fraction i total_pages)].

Definition page_failed_events (page : Z) (content : string) (e : exn)
  : list event :=
  page_call_events content (Raised e) ++
  (if exn_is_Exception e then
     [EvLog ERROR "An error occurred while generating summary #%d: %s"
            [ArgInt page; ArgExn e]]
   else []).

(** The events of the pages that completed, given their summaries. *)
Fixpoint done_events (total_pages i : nat) (items : pageset)
    (summaries : list string) : list event :=
  match items, summaries with
  | (page, content) :: items', summary :: summaries' =>
      page_done_events total_pages i page content summary ++
      done_events total_pages (S i) items' summaries'
  | _, _ => []
  end.


(** The completion call the Map Stage makes for a page. *)
Definition map_call (item : Z * string) : string * string * string * option Z :=
  (map_prompt_of item.2, user_system_message svc ui, "gpt-3.5-turbo", None).

(** The completion call of the Reduce Stage. *)
Definition reduce_call (map_summaries : list string)
  : string * string * string * option Z :=
  (build_prompt svc REDUCE_PROMPT_RESEARCH (reduce_text map_summaries)
                (user_reduce_words ui),
   user_system_message svc ui, "gpt-4-1106-preview", Some 1024).

(** The prompt of the Reduce Stage. *)
Definition reduce_prompt_of (map_summaries : list string) : string :=
  build_prompt svc REDUCE_PROMPT_RESEARCH (reduce_text map_summaries)
               (user_reduce_words ui).

(** The state in which the script enters the [try] of line 156. *)
Definition entry_state (data : string) (s : state World) : state World :=
  State (snd (write_file svc TEMP_PDF_PATH data (world (st (init_session s)))))
        (session (st (init_session s))).

(** What the script emits before it. *)
Definition script_preamble (data : string) : list event :=
  [EvLog INFO "%s mode-specific prompts have been initialized."
         [ArgStr (mode_name (selected_mode ui))];
   EvWriteFile TEMP_PDF_PATH data;
   EvNewProgressBar 0].
End MapTraceDefs.

(** The status messages of lines 158, 160 and 164. *)
Definition step1 : event := EvStatus StInfo "Step 1: Generating map summaries...".
Definition step2 : event := EvStatus StInfo "Step 2: Generating final summary...".
Definition completed : event :=
  EvStatus StSuccess "Summary generation completed successfully!".

(** ** Stand-ins for the external services *)

Module Stub.
(** The world is the queue of responses the completion client still has
    to give; once it is empty the client answers with the prompt. *)
Definition world : Type := list (result string).

Definition boom : exn := Exn "APIError" "service unavailable" true.


Definition chat (prompt sys_msg model : string) (max_tokens : option Z)
    (w : world) : result string * world :=
  match w with
  | [] => (Returned prompt, [])
  | r :: w' => (r, w')
  end.

(** [extracted] is what the extractor answers to every call; the prompt
    builder keeps the text only. *)
Definition services (extracted : result pageset) : services world :=
  Services "You are a helpful assistant."
           "Summarize {text} in {max_words} words."
           "Combine {text} in {max_words} words."
           (λ template text max_words, text)
           (λ pdf_path start_page end_page w, (extracted, w))
           chat
           (λ path data w, (Returned tt, w)).

Definition ui (m : mode) (start_page end_page : Z) : widgets :=
  Widgets m 150 300 (Some "%PDF-1.4") start_page end_page true.

Definition initial (w : world) : state world := State w ∅.
End Stub.


(** ** Notions used to state the claims about the joined text *)

(** The joined text as section 4.3 of the specification words it: the
    summaries joined by a newline, each doubled newline then collapsed into
    a single one.  It is compared below with [reduce_text], which is what
    line 124 computes. *)
Definition spec_reduce_text (map_summaries : list string) : string :=
  replace NLNL NL (join NL map_summaries).

(** The characters of [s] other than newlines, in order. *)
Fixpoint keep_non_newline (s : string) : string :=
  match s with
  | EmptyString => EmptyString
  | String c rest =>
      if Ascii.ascii_dec newline c then keep_non_newline rest
      else String c (keep_non_newline rest)
  end.

(** Whether two newlines stand next to each other somewhere in [s]. *)
Fixpoint has_doubled_newline (s : string) : bool :=
  match s with
  | EmptyString => false
  | String a rest =>
      match rest with
      | EmptyString => false
      | String b _ =>
          (if Ascii.ascii_dec newline a
           then (if Ascii.ascii_dec newline b then true else false)
           else false)
          || has_doubled_newline rest
      end
  end.

(** ** Lines 168-191: showing the stored summary *)

(** What the page shows below the button. *)
Inductive element :=
| Subheader (body : string)
| Markdown (body : string)
| Selectbox (label : string) (options : list string)
| DownloadButton (label data file_name mime : string).

(** Truth value of [st.session_state["final_summary"]]: [None] and the
    empty string are false. *)
Definition truthy (v : option string) : bool :=
  match v with
  | None => false
  | Some EmptyString => false
  | Some (String _ _) => true
  end.

Definition KeyError (key : string) : exn := Exn "KeyError" key true.

(** Lines 169-191, [file_format] being the value the select box returns.
    Subscripting [st.session_state] with a key it does not hold raises. *)
Definition display (file_format : string) (session : gmap string (option string))
  : result (list element) :=
  match session !! "final_summary" with
  | None => Raised (KeyError "final_summary")
  | Some v =>
      if truthy v then
        let final_summary := default "" v in
        Returned
          ([Subheader "Final Summary";
            Markdown final_summary;
            Selectbox "Choose a file format for download:"
                      ["Text File (.txt)"; "Markdown File (.md)"]] ++
           (if decide (file_format = "Text File (.txt)") then
              [DownloadButton "Download Summary" final_summary
                              "summary.txt" "text/plain"]
            else if decide (file_format = "Markdown File (.md)") then
              [DownloadButton "Download Summary" final_summary
                              "summary.md" "text/markdown"]
            else []))
      else Returned []
  end.

(** ** Further readers of a trace *)

(** The arguments of a completion call: prompt, system message, model and
    token limit. *)
Definition chat_call (ev : event)
  : option (string * string * string * option Z) :=
  match ev with
  | EvChat prompt sys_msg model max_tokens _ =>
      Some (prompt, sys_msg, model, max_tokens)
  | _ => None
  end.

Definition chat_calls (t : list event)
  : list (string * string * string * option Z) :=
  omap chat_call t.

Definition is_external_call (ev : event) : bool :=
  match ev with
  | EvWriteFile _ _ | EvExtract _ _ _ | EvChat _ _ _ _ _ => true
  | _ => false
  end.

(** The characters of the summaries other than newlines, summary after
    summary. *)
Definition summaries_text (map_summaries : list string) : string :=
  foldr (λ x acc, keep_non_newline x +:+ acc) EmptyString map_summaries.

(** The statuses that report how a run ended: the success of line 164 and
    the error of line 166, unlike the step messages of lines 158 and 160. *)
Definition outcome_status (ev : event) : option (status_kind * string) :=
  match ev with
  | EvStatus StSuccess body => Some (StSuccess, body)
  | EvStatus StError body => Some (StError, body)
  | _ => None
  end.

Definition outcome_statuses (t : list event) : list (status_kind * string) :=
  omap outcome_status t.

(** * Properties *)

(** ** One pass of the Map Stage loop *)

Section MapTrace.
Context {World : Type} (svc : services World) (ui : widgets).

Lemma map_page_returned total_pages i page content acc s summary w' :
  total_pages ≠ 0%nat →
  get_chat_response svc (map_prompt_of svc ui content) (user_system_message svc ui)
                    "gpt-3.5-turbo" None (world s) = (Returned summary, w') →
  map_page svc ui total_pages i page content acc s =
    Outcome (Returned (acc ++ [summary])) (State w' (session s))
            (page_done_events svc ui total_pages i page content summary).
Proof.
  intros Htotal Hchat.
  unfold map_page, try_except, mbind, py_bind, bind, call_build_prompt,
    call_get_chat_response, map_prompt_of in *. simpl.
  rewrite Hchat. simpl.
  unfold py_truediv. destruct (decide (Z.of_nat total_pages = 0)) as [Hz|Hz].
  { lia. }
  reflexivity.
Qed.

Lemma map_page_raised total_pages i page content acc s e w' :
  get_chat_response svc (map_prompt_of svc ui content) (user_system_message svc ui)
                    "gpt-3.5-turbo" None (world s) = (Raised e, w') →
  map_page svc ui total_pages i page content acc s =
    Outcome (Raised e) (State w' (session s))
            (page_failed_events svc ui page content e).
Proof.
  intros Hchat.
  unfold map_page, try_except, mbind, py_bind, bind, call_build_prompt,
    call_get_chat_response, map_prompt_of, page_failed_events,
    page_call_events, map_prompt_of in *. simpl.
  rewrite Hchat. simpl.
  destruct (exn_is_Exception e); reflexivity.
Qed.

Lemma map_loop_cons total_pages i page content rest acc s :
  map_loop svc ui total_pages i ((page, content) :: rest) acc s =
    let o := map_page svc ui total_pages i page content acc s in
    match res o with
    | Raised e => Outcome (Raised e) (st o) (evs o)
    | Returned acc' =>
        let o' := map_loop svc ui total_pages (S i) rest acc' (st o) in
        Outcome (res o') (st o') (evs o ++ evs o')
    end.
Proof. reflexivity. Qed.

(** What a run of the loop from index [i] does: with [l] the summaries of
    the pages that completed, either every page completed and the
    summaries are returned after the accumulated ones, or the page after
    them failed, its exception is raised, and the trace ends with the
    error record of that page. *)
Lemma map_loop_spec items :
  ∀ total_pages i acc s,
    total_pages ≠ 0%nat →
    let o := map_loop svc ui total_pages i items acc s in
    session (st o) = session s ∧
    ∃ l,
      (res o = Returned (acc ++ l) ∧ length l = length items ∧
       evs o = done_events svc ui total_pages i items l)
      ∨ (∃ page content e,
           items !! length l = Some (page, content) ∧
           res o = Raised e ∧
           evs o = done_events svc ui total_pages i items l ++
                   page_failed_events svc ui page content e).
Proof.
  induction items as [|[page content] rest IH]; intros total_pages i acc s Htotal.
  - simpl. split; [reflexivity|]. exists []. left.
    rewrite app_nil_r. split; [reflexivity|]. split; reflexivity.
  - rewrite map_loop_cons.
    destruct (get_chat_response svc (map_prompt_of svc ui content)
                (user_system_message svc ui) "gpt-3.5-turbo" None (world s))
      as [[e|summary] w'] eqn:Hchat.
    + rewrite (map_page_raised _ _ _ _ _ _ _ _ Hchat). simpl.
      split; [reflexivity|]. exists []. right.
      exists page, content, e.
      split; [reflexivity|]. split; reflexivity.
    + rewrite (map_page_returned _ _ _ _ _ _ _ _ Htotal Hchat).
      cbv zeta. cbn [res st evs].
      specialize (IH total_pages (S i) (acc ++ [summary])
                     (State w' (session s)) Htotal).
      cbv zeta in IH. destruct IH as [Hsess [l Hl]].
      split; [exact Hsess|].
      exists (summary :: l).
      destruct Hl as [(Hres & Hlen & Hevs)|(pg & ct & e & Hlook & Hres & Hevs)].
      * left. rewrite Hres, Hevs. cbn [length done_events].
        rewrite <- app_assoc.
        split; [reflexivity|]. split; [lia|reflexivity].
      * right. exists pg, ct, e. rewrite Hres, Hevs.
        cbn [length done_events]. rewrite <- !app_assoc.
        split; [exact Hlook|]. split; reflexivity.
Qed.

(** *** Reading the trace of the completed pages *)

Lemma chat_responses_done total_pages items :
  ∀ i l, (length l ≤ length items)%nat →
    chat_responses (done_events svc ui total_pages i items l) = Returned <$> l.
Proof.
  induction items as [|[page content] rest IH]; intros i [|summary l] Hlen;
    simpl in *; try reflexivity; try lia.
  f_equal. apply IH. lia.
Qed.

Lemma progress_values_done total_pages items :
  ∀ i l, (length l ≤ length items)%nat →
    progress_values (done_events svc ui total_pages i items l) =
      (λ j, fraction j total_pages) <$> seq i (length l).
Proof.
  induction items as [|[page content] rest IH]; intros i [|summary l] Hlen;
    simpl in *; try reflexivity; try lia.
  f_equal. apply IH. lia.
Qed.

Lemma logged_summaries_done total_pages items :
  ∀ i l, (length l ≤ length items)%nat →
    logged_summaries (done_events svc ui total_pages i items l) =
      zip (take (length l) items.*1) l.
Proof.
  induction items as [|[page content] rest IH]; intros i [|summary l] Hlen;
    simpl in *; try reflexivity; try lia.
  f_equal. apply IH. lia.
Qed.

Lemma prompt_templates_done total_pages items :
  ∀ i l, (length l ≤ length items)%nat →
    prompt_templates (done_events svc ui total_pages i items l) =
      replicate (length l) MAP_PROMPT_RESEARCH.
Proof.
  induction items as [|[page content] rest IH]; intros i [|summary l] Hlen;
    simpl in *; try reflexivity; try lia.
  f_equal. apply IH. lia.
Qed.

Lemma done_events_not_reduce total_pages items :
  ∀ i l, Forall (λ ev, is_reduce_event ev = false)
                (done_events svc ui total_pages i items l).
Proof.
  induction items as [|[page content] rest IH]; intros i [|summary l];
    simpl; try constructor.
  - reflexivity.
  - repeat (constructor; [reflexivity|]). apply IH.
Qed.
End MapTrace.

(** ** The Map Stage as a whole *)

Section MapStage.
Context {World : Type} (svc : services World) (ui : widgets).

(** [generate_map_summaries] in terms of the summaries [l] of the pages
    that completed: all of them, or those before the page that failed. *)
Lemma generate_map_summaries_spec pages s :
  let o := generate_map_summaries svc ui pages s in
  session (st o) = session s ∧
  ∃ l,
    (res o = Returned l ∧ length l = length pages ∧
     evs o = done_events svc ui (length pages) 0 pages l)
    ∨ (∃ page content e,
         pages !! length l = Some (page, content) ∧
         res o = Raised e ∧
         evs o = done_events svc ui (length pages) 0 pages l ++
                 page_failed_events svc ui page content e).
Proof.
  destruct pages as [|p rest] eqn:Hpages.
  - simpl. split; [reflexivity|]. exists []. left.
    split; [reflexivity|]. split; reflexivity.
  - rewrite <- Hpages. unfold generate_map_summaries. cbv zeta.
    assert (Hn : length pages ≠ 0%nat) by (rewrite Hpages; simpl; lia).
    apply (map_loop_spec svc ui pages (length pages) 0%nat [] s Hn).
Qed.

Lemma chat_responses_failed page content e :
  chat_responses (page_failed_events svc ui page content e) = [Raised e].
Proof. unfold page_failed_events. destruct (exn_is_Exception e); reflexivity. Qed.

Lemma progress_values_failed page content e :
  progress_values (page_failed_events svc ui page content e) = [].
Proof. unfold page_failed_events. destruct (exn_is_Exception e); reflexivity. Qed.

Lemma logged_summaries_failed page content e :
  logged_summaries (page_failed_events svc ui page content e) = [].
Proof. unfold page_failed_events. destruct (exn_is_Exception e); reflexivity. Qed.

Lemma prompt_templates_failed page content e :
  prompt_templates (page_failed_events svc ui page content e) =
    [MAP_PROMPT_RESEARCH].
Proof. unfold page_failed_events. destruct (exn_is_Exception e); reflexivity. Qed.

(** Every prompt of the Map Stage is built from [MAP_PROMPT_RESEARCH],
    whatever mode is selected. *)
Lemma map_stage_templates pages s :
  Forall (λ t, t = MAP_PROMPT_RESEARCH)
         (prompt_templates (evs (generate_map_summaries svc ui pages s))).
Proof.
  destruct (generate_map_summaries_spec pages s) as [_ [l Hl]].
  destruct Hl as [(_ & Hlen & Hevs)|(pg & ct & e & Hlook & _ & Hevs)];
    rewrite Hevs.
  - rewrite prompt_templates_done by lia. apply Forall_replicate. reflexivity.
  - apply lookup_lt_Some in Hlook.
    unfold prompt_templates in *. rewrite omap_app.
    apply Forall_app. split.
    + change (omap prompt_template ?t) with (prompt_templates t).
      rewrite prompt_templates_done by lia.
      apply Forall_replicate. reflexivity.
    + change (omap prompt_template ?t) with (prompt_templates t).
      rewrite prompt_templates_failed. repeat constructor.
Qed.

(** A run of the Map Stage never reaches the Reduce Stage's calls. *)
Lemma map_stage_not_reduce pages s :
  Forall (λ ev, is_reduce_event ev = false)
         (evs (generate_map_summaries svc ui pages s)).
Proof.
  destruct (generate_map_summaries_spec pages s) as [_ [l Hl]].
  destruct Hl as [(_ & _ & Hevs)|(pg & ct & e & _ & _ & Hevs)]; rewrite Hevs.
  - apply done_events_not_reduce.
  - apply Forall_app. split; [apply done_events_not_reduce|].
    unfold page_failed_events. destruct (exn_is_Exception e); repeat constructor.
Qed.
End MapStage.

(** ** Claims about the Map Stage *)

(** C5: for every non-empty PageSet, if every completion call of the run
    succeeds, the Map Stage returns a sequence with as many summaries as the
    PageSet has pages. *)
Theorem C5_map_output_length
    {World : Type} (svc : services World) (ui : widgets)
    (pages : pageset) (s : state World) :
  pages ≠ [] →
  Forall (λ r, is_returned r = true)
         (chat_responses (evs (generate_map_summaries svc ui pages s))) →
  ∃ l, res (generate_map_summaries svc ui pages s) = Returned l ∧
       length l = length pages.
Proof.
  intros _ Hall.
  destruct (generate_map_summaries_spec svc ui pages s) as [_ [l Hl]].
  destruct Hl as [(Hres & Hlen & _)|(pg & ct & e & _ & _ & Hevs)].
  - exists l. split; assumption.
  - exfalso. rewrite Hevs in Hall.
    unfold chat_responses in Hall. rewrite omap_app in Hall.
    apply Forall_app in Hall as [_ Hfail].
    inversion Hfail as [|r rs Hr _]; subst. discriminate Hr.
Qed.

Lemma C5_map_output_length_witness :
  ∃ l, res (generate_map_summaries (Stub.services (Returned [])) (Stub.ui General 1 2)
              [(1, "Intro text."); (2, "Methods text.")] (Stub.initial []))
       = Returned l ∧ length l = 2%nat.
Proof.
  apply (C5_map_output_length (Stub.services (Returned [])) (Stub.ui General 1 2)
           [(1, "Intro text."); (2, "Methods text.")] (Stub.initial [])).
  - discriminate.
  - vm_compute. repeat constructor.
Defined.

(** C3, as the code has it: if the completion call for the page at position
    [k] of the PageSet fails with exception [e], the Map Stage returns no
    sequence: it raises [e] itself, unchanged.  When [e] is an instance of
    [Exception], which is what line 116 catches, the page number goes, with
    [e], into the error record logged just before; otherwise nothing is
    logged and the failed call is the last thing the stage did. *)
Theorem C3_failure_reraised_and_logged
    {World : Type} (svc : services World) (ui : widgets)
    (pages : pageset) (s : state World)
    (k : nat) (page : Z) (content : string) (e : exn) :
  pages !! k = Some (page, content) →
  chat_responses (evs (generate_map_summaries svc ui pages s)) !! k
    = Some (Raised e) →
  res (generate_map_summaries svc ui pages s) = Raised e ∧
  last (evs (generate_map_summaries svc ui pages s)) =
    Some (if exn_is_Exception e
          then EvLog ERROR "An error occurred while generating summary #%d: %s"
                     [ArgInt page; ArgExn e]
          else EvChat (map_prompt_of svc ui content) (user_system_message svc ui)
                      "gpt-3.5-turbo" None (Raised e)).
Proof.
  intros Hpage Hfail.
  destruct (generate_map_summaries_spec svc ui pages s) as [_ [l Hl]].
  destruct Hl as [(_ & Hlen & Hevs)|(pg & ct & e' & Hlook & Hres & Hevs)];
    rewrite Hevs in Hfail.
  - rewrite chat_responses_done in Hfail by lia.
    rewrite list_lookup_fmap in Hfail.
    destruct (l !! k); discriminate Hfail.
  - pose proof (lookup_lt_Some _ _ _ Hlook) as Hlt.
    unfold chat_responses in Hfail. rewrite omap_app in Hfail.
    change (omap chat_response ?t) with (chat_responses t) in Hfail.
    rewrite chat_responses_done, chat_responses_failed in Hfail by lia.
    destruct (decide (k < length l)%nat) as [Hk|Hk].
    + rewrite lookup_app_l in Hfail by (rewrite length_fmap; exact Hk).
      rewrite list_lookup_fmap in Hfail.
      destruct (l !! k); discriminate Hfail.
    + rewrite lookup_app_r in Hfail by (rewrite length_fmap; lia).
      rewrite length_fmap in Hfail.
      destruct (k - length l)%nat as [|j] eqn:Hj; [|discriminate Hfail].
      injection Hfail as ->.
      assert (k = length l) as -> by lia.
      rewrite Hlook in Hpage. injection Hpage as -> ->.
      split; [exact Hres|].
      rewrite Hevs. unfold page_failed_events, page_call_events.
      destruct (exn_is_Exception e); rewrite !last_app; reflexivity.
Qed.

Lemma C3_failure_reraised_and_logged_witness :
  res (generate_map_summaries (Stub.services (Returned [])) (Stub.ui Research 1 3)
         [(1, "one"); (2, "two"); (3, "three")]
         (Stub.initial [Returned "first"; Raised Stub.boom])) = Raised Stub.boom ∧
  last (evs (generate_map_summaries (Stub.services (Returned [])) (Stub.ui Research 1 3)
         [(1, "one"); (2, "two"); (3, "three")]
         (Stub.initial [Returned "first"; Raised Stub.boom]))) =
    Some (EvLog ERROR "An error occurred while generating summary #%d: %s"
                [ArgInt 2; ArgExn Stub.boom]).
Proof.
  apply (C3_failure_reraised_and_logged (Stub.services (Returned []))
           (Stub.ui Research 1 3) [(1, "one"); (2, "two"); (3, "three")]
           (Stub.initial [Returned "first"; Raised Stub.boom]) 1 2 "two" Stub.boom).
  - reflexivity.
  - vm_compute. reflexivity.
Defined.

(** C3, as stated, fails: the failure that reaches the caller is the
    client's exception alone, the same for a failing page 1 and a failing
    page 7, so it does not carry the page number. *)
Lemma C3_raised_exception_has_no_page_number :
  res (generate_map_summaries (Stub.services (Returned [])) (Stub.ui Research 1 1)
         [(1, "text")] (Stub.initial [Raised Stub.boom])) = Raised Stub.boom ∧
  res (generate_map_summaries (Stub.services (Returned [])) (Stub.ui Research 7 7)
         [(7, "text")] (Stub.initial [Raised Stub.boom])) = Raised Stub.boom.
Proof. split; vm_compute; reflexivity. Qed.




(** ** Progress reports *)

Lemma fraction_value (i total_pages : nat) :
  (fraction i total_pages ==
   inject_Z (Z.of_nat i + 1) / inject_Z (Z.of_nat total_pages))%Q.
Proof. unfold fraction. apply Qred_correct. Qed.

Lemma fraction_last (total_pages : nat) :
  total_pages ≠ 0%nat → fraction (total_pages - 1) total_pages = 1%Q.
Proof.
  intros Hn. unfold fraction.
  replace (Z.of_nat (total_pages - 1) + 1) with (Z.of_nat total_pages) by lia.
  change 1%Q with (Qred 1). apply Qred_complete.
  apply Qmult_inv_r. intros H.
  unfold Qeq in H. simpl in H. lia.
Qed.

Section Progress.
Context {World : Type} (svc : services World) (ui : widgets).

(** In the trace of completed pages, a progress report is preceded by the
    completion calls of the pages up to its own, all successful, and
    carries the fraction of its page. *)
Lemma done_events_progress total_pages items :
  ∀ i l t1 v t2,
    done_events svc ui total_pages i items l = t1 ++ EvProgress v :: t2 →
    ∃ c, length (chat_responses t1) = S c ∧
         Forall (λ r, is_returned r = true) (chat_responses t1) ∧
         v = fraction (i + c) total_pages.
Proof.
  induction items as [|[page content] rest IH]; intros i l t1 v t2 H.
  - simpl in H. destruct t1; discriminate H.
  - destruct l as [|summary l]; simpl in H; [destruct t1; discriminate H|].
    destruct t1 as [|e1 [|e2 [|e3 [|e4 t1']]]]; simpl in H;
      inversion H as [[H1 H2 H3 H4 H5]]; subst; clear H.
    + exists 0%nat. rewrite Nat.add_0_r.
      split; [reflexivity|]. split; [|reflexivity].
      repeat constructor.
    + destruct (IH _ _ _ _ _ H5) as (c & Hlen & Hall & ->).
      exists (S c). cbn. unfold chat_responses in Hlen, Hall.
      rewrite Hlen. split; [reflexivity|]. split.
      * constructor; [reflexivity|exact Hall].
      * f_equal. lia.
Qed.

Lemma map_stage_progress pages s t1 v t2 :
  evs (generate_map_summaries svc ui pages s) = t1 ++ EvProgress v :: t2 →
  ∃ c, length (chat_responses t1) = S c ∧
       Forall (λ r, is_returned r = true) (chat_responses t1) ∧
       v = fraction c (length pages).
Proof.
  intros H.
  destruct (generate_map_summaries_spec svc ui pages s) as [_ [l Hl]].
  destruct Hl as [(_ & _ & Hevs)|(pg & ct & e & _ & _ & Hevs)];
    rewrite Hevs in H.
  - apply (done_events_progress _ _ 0%nat l t1 v t2 H).
  - apply app_eq_app in H as [m [[Hd Hf]|[Ht Hf]]].
    + destruct m as [|ev m]; simpl in Hf.
      * discriminate Hf.
      * injection Hf as <- _.
        apply (done_events_progress _ _ 0%nat l t1 v m Hd).
    + exfalso. unfold page_failed_events, page_call_events in Hf.
      destruct (exn_is_Exception e); simpl in Hf;
        destruct m as [|m1 [|m2 [|m3 [|m4 m]]]]; simpl in Hf;
        inversion Hf.
Qed.
End Progress.

(** C7: in every run of the Map Stage, each value the progress sink
    receives comes after the completion calls of the pages up to index [c]
    have returned, and is [(c + 1) / total_pages]; so nothing is reported
    before the first page has completed.  When all pages succeed the sink
    receives these values for every index in turn, the last one being 1. *)
Theorem C7_progress_reports
    {World : Type} (svc : services World) (ui : widgets)
    (pages : pageset) (s : state World) :
  (∀ t1 v t2,
     evs (generate_map_summaries svc ui pages s) = t1 ++ EvProgress v :: t2 →
     ∃ c, length (chat_responses t1) = S c ∧
          Forall (λ r, is_returned r = true) (chat_responses t1) ∧
          v = fraction c (length pages) ∧
          (v == inject_Z (Z.of_nat c + 1) / inject_Z (Z.of_nat (length pages)))%Q) ∧
  (∀ l,
     res (generate_map_summaries svc ui pages s) = Returned l →
     progress_values (evs (generate_map_summaries svc ui pages s)) =
       (λ i, fraction i (length pages)) <$> seq 0 (length pages) ∧
     (pages ≠ [] →
      last (progress_values (evs (generate_map_summaries svc ui pages s)))
        = Some 1%Q)).
Proof.
  split.
  - intros t1 v t2 H.
    destruct (map_stage_progress svc ui pages s t1 v t2 H) as (c & Hc & Hall & ->).
    exists c. split; [exact Hc|]. split; [exact Hall|].
    split; [reflexivity|]. apply fraction_value.
  - intros l Hret.
    destruct (generate_map_summaries_spec svc ui pages s) as [_ [l' Hl]].
    destruct Hl as [(Hres & Hlen & Hevs)|(pg & ct & e & _ & Hres & _)];
      rewrite Hres in Hret; [|discriminate Hret].
    injection Hret as ->.
    assert (Hvalues :
      progress_values (evs (generate_map_summaries svc ui pages s)) =
        (λ i, fraction i (length pages)) <$> seq 0 (length pages)).
    { rewrite Hevs, progress_values_done by lia. rewrite Hlen. reflexivity. }
    split; [exact Hvalues|].
    intros Hne. rewrite Hvalues.
    assert (Hn : length pages ≠ 0%nat) by (destruct pages; [congruence|simpl; lia]).
    destruct (length pages) as [|n]; [congruence|].
    rewrite seq_S, fmap_app. simpl. rewrite last_snoc.
    f_equal. pose proof (fraction_last (S n) Hn) as Hlast.
    simpl in Hlast. rewrite Nat.sub_0_r in Hlast. exact Hlast.
Qed.

Lemma C7_progress_reports_witness :
  progress_values
    (evs (generate_map_summaries (Stub.services (Returned [])) (Stub.ui General 1 2)
            [(1, "Intro text."); (2, "Methods text.")] (Stub.initial [])))
    = [(1 # 2)%Q; 1%Q] ∧
  last (progress_values
    (evs (generate_map_summaries (Stub.services (Returned [])) (Stub.ui General 1 2)
            [(1, "Intro text."); (2, "Methods text.")] (Stub.initial []))))
    = Some 1%Q.
Proof.
  destruct (proj2 (C7_progress_reports (Stub.services (Returned []))
             (Stub.ui General 1 2) [(1, "Intro text."); (2, "Methods text.")]
             (Stub.initial [])) ["Intro text."; "Methods text."])
    as [Hvalues Hlast].
  - vm_compute. reflexivity.
  - split; [exact Hvalues|]. apply Hlast. discriminate.
Defined.

(** C10: for the empty PageSet the Map Stage returns the empty sequence,
    raises nothing and emits nothing, so reports no progress; and in no run
    does the division raise: whenever the Map Stage raises, the exception is
    the one a completion call of that run failed with. *)
Theorem C10_empty_pageset
    {World : Type} (svc : services World) (ui : widgets) (s : state World) :
  generate_map_summaries svc ui [] s = Outcome (Returned []) s [] ∧
  progress_values (evs (generate_map_summaries svc ui [] s)) = [] ∧
  ∀ pages s' e,
    res (generate_map_summaries svc ui pages s') = Raised e →
    In (Raised e) (chat_responses (evs (generate_map_summaries svc ui pages s'))).
Proof.
  split; [reflexivity|]. split; [reflexivity|].
  intros pages s' e Hraised.
  destruct (generate_map_summaries_spec svc ui pages s') as [_ [l Hl]].
  destruct Hl as [(Hres & _ & _)|(pg & ct & e' & _ & Hres & Hevs)];
    rewrite Hres in Hraised; [discriminate Hraised|].
  injection Hraised as ->. rewrite Hevs.
  unfold chat_responses. rewrite omap_app. apply in_app_iff. right.
  left. reflexivity.
Qed.

Lemma C10_empty_pageset_witness :
  In (Raised Stub.boom)
     (chat_responses
        (evs (generate_map_summaries (Stub.services (Returned [])) (Stub.ui General 1 1)
                [(1, "text")] (Stub.initial [Raised Stub.boom])))).
Proof.
  apply (proj2 (proj2 (C10_empty_pageset (Stub.services (Returned []))
                         (Stub.ui General 1 1) (Stub.initial [])))).
  vm_compute. reflexivity.
Defined.

(** ** The joined text of the Reduce Stage *)

Lemma replace_from_nlnl_step (c : ascii) (rest : string) :
  replace_from NLNL "" 0 (String c rest) =
    if Ascii.ascii_dec newline c then
      match rest with
      | EmptyString => String c EmptyString
      | String d rest' =>
          if Ascii.ascii_dec newline d then replace_from NLNL "" 0 rest'
          else String c (replace_from NLNL "" 0 rest)
      end
    else String c (replace_from NLNL "" 0 rest).
Proof.
  unfold NLNL. cbn [replace_from String.prefix].
  destruct (Ascii.ascii_dec newline c) as [Hc|Hc]; [|reflexivity].
  destruct rest as [|d rest']; [reflexivity|].
  cbn [replace_from String.prefix String.length Nat.sub String.append].
  destruct (Ascii.ascii_dec newline d) as [Hd|Hd]; [|reflexivity].
  replace (String.prefix "" rest') with true by (destruct rest'; reflexivity).
  reflexivity.
Qed.

(** Deleting the doubled newlines keeps every other character, in order. *)
Lemma delete_nlnl_keeps_text (s : string) :
  keep_non_newline (replace_from NLNL "" 0 s) = keep_non_newline s ∧
  ∀ c, keep_non_newline (replace_from NLNL "" 0 (String c s)) =
       keep_non_newline (String c s).
Proof.
  induction s as [|a s [IH1 IH2]].
  - split; [reflexivity|]. intros c. rewrite replace_from_nlnl_step.
    destruct (Ascii.ascii_dec newline c); reflexivity.
  - split; [apply IH2|]. intros c. rewrite replace_from_nlnl_step.
    destruct (Ascii.ascii_dec newline c) as [Hc|Hc].
    + destruct (Ascii.ascii_dec newline a) as [Ha|Ha].
      * rewrite IH1. cbn [keep_non_newline].
        destruct (Ascii.ascii_dec newline c); [|contradiction].
        destruct (Ascii.ascii_dec newline a); [|contradiction]. reflexivity.
      * cbn [keep_non_newline].
        destruct (Ascii.ascii_dec newline c); [|contradiction].
        apply IH2.
    + cbn [keep_non_newline].
      destruct (Ascii.ascii_dec newline c); [contradiction|].
      f_equal. apply IH2.
Qed.

(** What is left starts with a newline only if the input did. *)
Lemma delete_nlnl_head (s : string) (b : ascii) (t : string) :
  replace_from NLNL "" 0 s = String b t →
  newline = b →
  ∃ t', s = String newline t' ∧ ∀ d t'', t' = String d t'' → newline ≠ d ∨
        replace_from NLNL "" 0 s = replace_from NLNL "" 0 t''.
Proof.
  intros H Hb. destruct s as [|c rest]; [discriminate H|].
  rewrite replace_from_nlnl_step in H |- *.
  destruct (Ascii.ascii_dec newline c) as [Hc|Hc].
  - subst c. exists rest. split; [reflexivity|].
    intros d t'' ->.
    destruct (Ascii.ascii_dec newline d) as [Hd|Hd]; [right; reflexivity|left; exact Hd].
  - injection H as H _. congruence.
Qed.

(** After the deletion no two newlines are adjacent. *)
Lemma delete_nlnl_no_doubled (s : string) :
  has_doubled_newline (replace_from NLNL "" 0 s) = false ∧
  ∀ c, has_doubled_newline (replace_from NLNL "" 0 (String c s)) = false.
Proof.
  induction s as [|a s [IH1 IH2]].
  - split; [reflexivity|]. intros c. rewrite replace_from_nlnl_step.
    destruct (Ascii.ascii_dec newline c); reflexivity.
  - split; [apply IH2|]. intros c. rewrite replace_from_nlnl_step.
    assert (Hkeep : ∀ r, r = replace_from NLNL "" 0 (String a s) →
              (newline = c → newline ≠ a) →
              has_doubled_newline (String c r) = false).
    { intros r Hr Hca.
      assert (Hrest : has_doubled_newline r = false)
        by (rewrite Hr; apply IH2).
      destruct r as [|b t]; [reflexivity|].
      change (has_doubled_newline (String c (String b t))) with
        ((if Ascii.ascii_dec newline c
          then (if Ascii.ascii_dec newline b then true else false)
          else false) || has_doubled_newline (String b t)).
      apply orb_false_intro; [|exact Hrest].
      destruct (Ascii.ascii_dec newline c) as [Hc|Hc]; [|reflexivity].
      destruct (Ascii.ascii_dec newline b) as [Hb|Hb]; [|reflexivity].
      exfalso. symmetry in Hr.
      destruct (delete_nlnl_head _ _ _ Hr Hb) as (t' & Hs & _).
      injection Hs as Ha _. apply (Hca Hc). symmetry. exact Ha. }
    destruct (Ascii.ascii_dec newline c) as [Hc|Hc].
    + destruct (Ascii.ascii_dec newline a) as [Ha|Ha].
      * exact IH1.
      * apply Hkeep; [reflexivity|]. intros _. exact Ha.
    + apply Hkeep; [reflexivity|]. intros Hc'. contradiction.
Qed.

Lemma has_doubled_newline_occurrence (pre post : string) :
  has_doubled_newline (pre +:+ NLNL +:+ post) = true.
Proof.
  induction pre as [|a pre IH].
  - cbn. destruct (Ascii.ascii_dec newline newline); [reflexivity|contradiction].
  - change (String a pre +:+ NLNL +:+ post)
      with (String a (pre +:+ NLNL +:+ post)).
    destruct (pre +:+ NLNL +:+ post) as [|b t] eqn:Ht.
    + destruct pre; discriminate Ht.
    + change (has_doubled_newline (String a (String b t))) with
        ((if Ascii.ascii_dec newline a
          then (if Ascii.ascii_dec newline b then true else false)
          else false) || has_doubled_newline (String b t)).
      apply orb_true_intro. right. exact IH.
Qed.

(** ** PDF loading, the Reduce Stage and the pipeline *)

Section Pipeline.
Context {World : Type} (svc : services World) (ui : widgets).

Lemma process_pdf_spec full_path start_page end_page s :
  let r := extract_pages_text svc full_path start_page end_page (world s) in
  process_pdf svc full_path start_page end_page s =
    Outcome (fst r) (State (snd r) (session s))
      (EvExtract full_path start_page end_page ::
       match fst r with
       | Returned pages =>
           [EvLog INFO "Successfully loaded text from %d PDF pages."
                  [ArgInt (Z.of_nat (length pages))]]
       | Raised e =>
           if exn_is_Exception e
           then [EvLog ERROR "An error occurred while processing PDF: %s"
                       [ArgExn e]]
           else []
       end).
Proof.
  cbv zeta.
  unfold process_pdf, try_except, mbind, py_bind, bind,
    call_extract_pages_text. simpl.
  destruct (extract_pages_text svc full_path start_page end_page (world s))
    as [[e|pages] w']; simpl; [destruct (exn_is_Exception e)|]; reflexivity.
Qed.

Lemma generate_reduce_summary_spec map_summaries s :
  let r := get_chat_response svc (reduce_prompt_of svc ui map_summaries)
             (user_system_message svc ui) "gpt-4-1106-preview" (Some 1024)
             (world s) in
  generate_reduce_summary svc ui map_summaries s =
    Outcome (fst r) (State (snd r) (session s))
      ([EvBuildPrompt REDUCE_PROMPT_RESEARCH (reduce_text map_summaries)
                      (user_reduce_words ui);
        EvChat (reduce_prompt_of svc ui map_summaries) (user_system_message svc ui)
               "gpt-4-1106-preview" (Some 1024) (fst r)] ++
       match fst r with
       | Returned _ => [EvLog INFO "Completed final reduce summary!" []]
       | Raised e =>
           if exn_is_Exception e
           then [EvLog ERROR "An error occurred while generating final summary: %s"
                       [ArgExn e]]
           else []
       end).
Proof.
  cbv zeta.
  unfold generate_reduce_summary, try_except, mbind, py_bind, bind,
    call_build_prompt, call_get_chat_response, reduce_prompt_of. simpl.
  destruct (get_chat_response svc _ _ _ _ (world s)) as [[e|f] w']; simpl;
    [destruct (exn_is_Exception e)|]; reflexivity.
Qed.

(** The pipeline, stage by stage. *)
Lemma pipeline_unfold s :
  pipeline svc ui s =
    let o1 := process_pdf svc TEMP_PDF_PATH (user_start_page ui)
                          (user_end_page ui) s in
    match res o1 with
    | Raised e => Outcome (Raised e) (st o1) (evs o1)
    | Returned pages =>
        let o2 := generate_map_summaries svc ui pages (st o1) in
        match res o2 with
        | Raised e => Outcome (Raised e) (st o2) (evs o1 ++ step1 :: evs o2)
        | Returned map_summaries =>
            let o3 := generate_reduce_summary svc ui map_summaries (st o2) in
            match res o3 with
            | Raised e =>
                Outcome (Raised e) (st o3)
                        (evs o1 ++ step1 :: evs o2 ++ step2 :: evs o3)
            | Returned final_summary =>
                Outcome (Returned tt)
                  (State (world (st o3))
                         (<["final_summary" := Some final_summary]>
                            (session (st o3))))
                  (evs o1 ++ step1 :: evs o2 ++ step2 :: evs o3 ++ [completed])
            end
        end
    end.
Proof.
  unfold pipeline, mbind, py_bind, bind, emit, session_setitem. cbv zeta.
  destruct (process_pdf svc TEMP_PDF_PATH _ _ s) as [[e|pages] s1 t1];
    cbn [res st evs]; [reflexivity|].
  destruct (generate_map_summaries svc ui pages s1) as [[e|sums] s2 t2];
    cbn [res st evs]; [reflexivity|].
  destruct (generate_reduce_summary svc ui sums s2) as [[e|f] s3 t3];
    cbn [res st evs]; reflexivity.
Qed.

(** A pipeline that raises leaves [st.session_state] as it found it. *)
Lemma pipeline_raised_session s e :
  res (pipeline svc ui s) = Raised e →
  session (st (pipeline svc ui s)) = session s.
Proof.
  rewrite pipeline_unfold. cbv zeta.
  pose proof (process_pdf_spec TEMP_PDF_PATH (user_start_page ui)
                (user_end_page ui) s) as H1. cbv zeta in H1.
  destruct (res (process_pdf svc TEMP_PDF_PATH _ _ s)) as [e1|pages] eqn:R1.
  - intros _. cbn [st]. rewrite H1. reflexivity.
  - pose proof (generate_map_summaries_spec svc ui pages
                  (st (process_pdf svc TEMP_PDF_PATH (user_start_page ui)
                         (user_end_page ui) s))) as [H2 _].
    cbv zeta in H2.
    destruct (res (generate_map_summaries svc ui pages _)) as [e2|sums] eqn:R2.
    + intros _. cbn [st]. rewrite H2, H1. reflexivity.
    + pose proof (generate_reduce_summary_spec sums
                    (st (generate_map_summaries svc ui pages
                      (st (process_pdf svc TEMP_PDF_PATH (user_start_page ui)
                         (user_end_page ui) s))))) as H3.
      cbv zeta in H3.
      destruct (res (generate_reduce_summary svc ui sums _)) as [e3|f] eqn:R3.
      * intros _. cbn [st]. rewrite H3. cbn [st session].
        rewrite H2, H1. reflexivity.
      * intros H. discriminate H.
Qed.
End Pipeline.

Section Script.
Context {World : Type} (svc : services World) (ui : widgets).

Lemma pipeline_returned_last s u :
  res (pipeline svc ui s) = Returned u →
  last (evs (pipeline svc ui s)) = Some completed.
Proof.
  rewrite pipeline_unfold. cbv zeta.
  destruct (res (process_pdf svc TEMP_PDF_PATH _ _ s)) as [e1|pages];
    [intros H; discriminate H|].
  destruct (res (generate_map_summaries svc ui pages _)) as [e2|sums];
    [intros H; discriminate H|].
  destruct (res (generate_reduce_summary svc ui sums _)) as [e3|f];
    [intros H; discriminate H|].
  intros _. cbn [evs].
  rewrite last_app, last_cons, last_app, last_cons, last_app.
  reflexivity.
Qed.

(** The script when the button is clicked with a file uploaded.  The write
    of lines 150-151 is outside the [try]: when it raises, the script ends
    with that exception.  Inside the [try], only instances of [Exception]
    are turned into the error status. *)
Lemma script_clicked data s :
  generate_clicked ui = true →
  uploaded_file ui = Some data →
  script svc ui s =
    match fst (write_file svc TEMP_PDF_PATH data (world (st (init_session s)))) with
    | Raised e =>
        Outcome (Raised e) (entry_state svc data s)
          [EvLog INFO "%s mode-specific prompts have been initialized."
                 [ArgStr (mode_name (selected_mode ui))];
           EvWriteFile TEMP_PDF_PATH data]
    | Returned _ =>
        let o := pipeline svc ui (entry_state svc data s) in
        Outcome
          (match res o with
           | Raised err =>
               if exn_is_Exception err then Returned tt else Raised err
           | Returned _ => Returned tt
           end)
          (st o)
          (script_preamble ui data ++ evs o ++
           match res o with
           | Raised err =>
               if exn_is_Exception err
               then [EvStatus StError ("An error occurred: " +:+ exn_msg err)]
               else []
           | Returned _ => []
           end)
    end.
Proof.
  intros Hclick Hfile.
  unfold script, entry_state, script_preamble. rewrite Hclick, Hfile.
  unfold mbind, py_bind, bind, try_except, logging, emit, call_write_file.
  cbv zeta.
  assert (Hinit : res (init_session s) = Returned tt ∧ evs (init_session s) = []).
  { unfold init_session, session_setitem, ret.
    destruct (session s !! "final_summary"); split; reflexivity. }
  destruct Hinit as [Hr He]. rewrite Hr, He. cbn [res st evs app world session].
  destruct (write_file svc TEMP_PDF_PATH data (world (st (init_session s))))
    as [[e|[]] w'] eqn:Hw; cbn [fst snd res st evs app world session];
    [reflexivity|].
  destruct (pipeline svc ui _) as [[err|[]] s' t'] eqn:Hres;
    cbn [res st evs app].
  - destruct (exn_is_Exception err); cbn [res st evs app].
    + reflexivity.
    + rewrite app_nil_r. reflexivity.
  - rewrite app_nil_r. reflexivity.
Qed.

(** The same, when the write of [temp.pdf] returns. *)
Lemma script_clicked_written data s :
  generate_clicked ui = true →
  uploaded_file ui = Some data →
  fst (write_file svc TEMP_PDF_PATH data (world (st (init_session s))))
    = Returned tt →
  script svc ui s =
    let o := pipeline svc ui (entry_state svc data s) in
    Outcome
      (match res o with
       | Raised err =>
           if exn_is_Exception err then Returned tt else Raised err
       | Returned _ => Returned tt
       end)
      (st o)
      (script_preamble ui data ++ evs o ++
       match res o with
       | Raised err =>
           if exn_is_Exception err
           then [EvStatus StError ("An error occurred: " +:+ exn_msg err)]
           else []
       | Returned _ => []
       end).
Proof.
  intros Hclick Hfile Hw.
  rewrite (script_clicked data s Hclick Hfile), Hw. reflexivity.
Qed.
End Script.

(** ** Claims about the Reduce Stage and the pipeline *)

(** C6, as the code has it: the text handed to the aggregate prompt is the
    summaries joined in their received order by a newline, from which every
    doubled newline, scanning from the left, is then deleted (both
    characters).  Every character other than a newline is kept, in order,
    and no two newlines remain adjacent. *)
Theorem C6_reduce_text_deletes_doubled_newlines
    {World : Type} (svc : services World) (ui : widgets)
    (map_summaries : list string) (s : state World) :
  omap prompt_text (evs (generate_reduce_summary svc ui map_summaries s))
    = [reduce_text map_summaries] ∧
  reduce_text map_summaries = replace NLNL "" (join NL map_summaries) ∧
  keep_non_newline (reduce_text map_summaries)
    = keep_non_newline (join NL map_summaries) ∧
  ∀ pre post, reduce_text map_summaries ≠ pre +:+ NLNL +:+ post.
Proof.
  split.
  { rewrite generate_reduce_summary_spec. cbv zeta. cbn [evs].
    destruct (fst _) as [e|f]; [destruct (exn_is_Exception e)|]; reflexivity. }
  split; [reflexivity|].
  unfold reduce_text, replace, NLNL. fold NLNL.
  split.
  - apply delete_nlnl_keeps_text.
  - intros pre post H.
    pose proof (proj1 (delete_nlnl_no_doubled (join NL map_summaries))) as Hno.
    rewrite H, has_doubled_newline_occurrence in Hno. discriminate Hno.
Qed.

(** C6, as stated, fails: a summary that ends with a newline is fused with
    the next one, no separator left, where collapsing the doubled newline
    would have kept one. *)
Lemma C6_doubled_newline_is_deleted_not_collapsed :
  reduce_text ["Intro." +:+ NL; "Methods."] = "Intro.Methods." ∧
  spec_reduce_text ["Intro." +:+ NL; "Methods."] = "Intro." +:+ NL +:+ "Methods." ∧
  reduce_text ["Intro." +:+ NL; "Methods."]
    ≠ spec_reduce_text ["Intro." +:+ NL; "Methods."].
Proof.
  split; [vm_compute; reflexivity|]. split; [vm_compute; reflexivity|].
  vm_compute. discriminate.
Qed.

(** C1, at the failing input: with mode General selected, whose templates
    are the two of [genaipy], both stages still build their prompts from
    the Research templates of [prompts.py]. *)
Theorem C1_general_mode_builds_research_prompts :
  let svc := Stub.services (Returned []) in
  let ui := Stub.ui General 1 2 in
  map_prompt_template svc ui = SUMMARY_PROMPT_TPL svc ∧
  reduce_prompt_template svc ui = REDUCE_SUMMARY_PROMPT_TPL svc ∧
  prompt_templates
    (evs (generate_map_summaries svc ui
            [(1, "Intro text."); (2, "Methods text.")] (Stub.initial [])))
    = [MAP_PROMPT_RESEARCH; MAP_PROMPT_RESEARCH] ∧
  prompt_templates
    (evs (generate_reduce_summary svc ui ["Intro."; "Methods."] (Stub.initial [])))
    = [REDUCE_PROMPT_RESEARCH] ∧
  MAP_PROMPT_RESEARCH ≠ SUMMARY_PROMPT_TPL svc ∧
  REDUCE_PROMPT_RESEARCH ≠ REDUCE_SUMMARY_PROMPT_TPL svc.
Proof.
  cbv zeta.
  split; [reflexivity|]. split; [reflexivity|].
  split; [vm_compute; reflexivity|]. split; [vm_compute; reflexivity|].
  split; vm_compute; discriminate.
Qed.

(** In every mode the templates are the Research ones. *)
Lemma templates_do_not_depend_on_mode
    {World : Type} (svc : services World) (ui : widgets)
    (pages : pageset) (map_summaries : list string) (s : state World) :
  Forall (λ t, t = MAP_PROMPT_RESEARCH)
         (prompt_templates (evs (generate_map_summaries svc ui pages s))) ∧
  prompt_templates (evs (generate_reduce_summary svc ui map_summaries s))
    = [REDUCE_PROMPT_RESEARCH].
Proof.
  split; [apply map_stage_templates|].
  rewrite generate_reduce_summary_spec. cbv zeta.
  unfold prompt_templates. cbn [evs].
  destruct (fst _) as [e|f]; [destruct (exn_is_Exception e)|]; reflexivity.
Qed.

(** C2, as the code has it: the pipeline checks no range.  For every input,
    [start_page > end_page] included, its first action is the call of the
    Page Extractor with the bounds as given; when that call raises, the run
    fails with the extractor's exception and nothing else is called: no
    prompt is built and no model call is attempted.  The exception is logged
    by the handler of line 91 when it is an instance of [Exception], and
    passes without a log record when it is not. *)
Theorem C2_run_starts_with_extraction
    {World : Type} (svc : services World) (ui : widgets) (s : state World) :
  head (evs (pipeline svc ui s)) =
    Some (EvExtract TEMP_PDF_PATH (user_start_page ui) (user_end_page ui)) ∧
  ∀ e,
    fst (extract_pages_text svc TEMP_PDF_PATH (user_start_page ui)
           (user_end_page ui) (world s)) = Raised e →
    res (pipeline svc ui s) = Raised e ∧
    evs (pipeline svc ui s) =
      EvExtract TEMP_PDF_PATH (user_start_page ui) (user_end_page ui) ::
      (if exn_is_Exception e
       then [EvLog ERROR "An error occurred while processing PDF: %s" [ArgExn e]]
       else []).
Proof.
  rewrite pipeline_unfold. cbv zeta.
  rewrite process_pdf_spec. cbv zeta. cbn [res st evs].
  split.
  - destruct (fst (extract_pages_text svc _ _ _ _)) as [e|pages]; [reflexivity|].
    destruct (res (generate_map_summaries svc ui pages _)); [reflexivity|].
    destruct (res (generate_reduce_summary svc ui _ _)); reflexivity.
  - intros e He. rewrite He. split; reflexivity.
Qed.

Lemma C2_run_starts_with_extraction_witness :
  res (pipeline (Stub.services (Raised Stub.boom)) (Stub.ui General 5 2)
         (Stub.initial [])) = Raised Stub.boom ∧
  evs (pipeline (Stub.services (Raised Stub.boom)) (Stub.ui General 5 2)
         (Stub.initial [])) =
    [EvExtract "temp.pdf" 5 2;
     EvLog ERROR "An error occurred while processing PDF: %s" [ArgExn Stub.boom]].
Proof.
  apply (proj2 (C2_run_starts_with_extraction (Stub.services (Raised Stub.boom))
                  (Stub.ui General 5 2) (Stub.initial [])) Stub.boom).
  reflexivity.
Defined.

(** C2, as stated, fails: with start page 5 and end page 2 the first thing
    the run does is to invoke the Page Extractor on that range. *)
Lemma C2_reversed_range_reaches_extractor :
  user_start_page (Stub.ui General 5 2) > user_end_page (Stub.ui General 5 2) ∧
  (1 ≤ user_end_page (Stub.ui General 5 2))%Z ∧
  head (evs (pipeline (Stub.services (Returned [])) (Stub.ui General 5 2)
               (Stub.initial []))) = Some (EvExtract "temp.pdf" 5 2).
Proof.
  split; [reflexivity|]. split; [discriminate|]. vm_compute. reflexivity.
Qed.

(** C8: in every run in which the Map Stage fails, the pipeline fails with
    the same exception and nothing of the Reduce Stage happens: no prompt is
    built from the reduce template, no completion call goes to the reduce
    model, and the run ends with the events of the Map Stage. *)
Theorem C8_reduce_not_invoked_after_map_failure
    {World : Type} (svc : services World) (ui : widgets) (s : state World)
    (pages : pageset) (e : exn) :
  res (process_pdf svc TEMP_PDF_PATH (user_start_page ui) (user_end_page ui) s)
    = Returned pages →
  res (generate_map_summaries svc ui pages
         (st (process_pdf svc TEMP_PDF_PATH (user_start_page ui)
                (user_end_page ui) s))) = Raised e →
  res (pipeline svc ui s) = Raised e ∧
  Forall (λ ev, is_reduce_event ev = false) (evs (pipeline svc ui s)) ∧
  evs (pipeline svc ui s) =
    evs (process_pdf svc TEMP_PDF_PATH (user_start_page ui) (user_end_page ui) s)
    ++ step1 ::
    evs (generate_map_summaries svc ui pages
           (st (process_pdf svc TEMP_PDF_PATH (user_start_page ui)
                  (user_end_page ui) s))).
Proof.
  intros Hpdf Hmap.
  rewrite pipeline_unfold. cbv zeta. rewrite Hpdf, Hmap. cbn [res evs].
  split; [reflexivity|]. split; [|reflexivity].
  apply Forall_app. split.
  - rewrite process_pdf_spec. cbv zeta. cbn [evs].
    destruct (fst _) as [e1|pgs]; [destruct (exn_is_Exception e1)|];
      repeat constructor.
  - constructor; [reflexivity|]. apply map_stage_not_reduce.
Qed.

Lemma C8_reduce_not_invoked_after_map_failure_witness :
  res (pipeline (Stub.services (Returned [(1, "one"); (2, "two"); (3, "three")]))
         (Stub.ui Research 1 3)
         (Stub.initial [Returned "first"; Raised Stub.boom])) = Raised Stub.boom ∧
  Forall (λ ev, is_reduce_event ev = false)
    (evs (pipeline (Stub.services (Returned [(1, "one"); (2, "two"); (3, "three")]))
            (Stub.ui Research 1 3)
            (Stub.initial [Returned "first"; Raised Stub.boom]))).
Proof.
  destruct (C8_reduce_not_invoked_after_map_failure
              (Stub.services (Returned [(1, "one"); (2, "two"); (3, "three")]))
              (Stub.ui Research 1 3)
              (Stub.initial [Returned "first"; Raised Stub.boom])
              [(1, "one"); (2, "two"); (3, "three")] Stub.boom)
    as (Hres & Hnone & _).
  - reflexivity.
  - vm_compute. reflexivity.
  - split; [exact Hres|exact Hnone].
Defined.



(** * Further properties of the code *)

(** ** The completion calls of the Map Stage *)

Section MapCalls.
Context {World : Type} (svc : services World) (ui : widgets).

Lemma chat_calls_done total_pages items :
  ∀ i l, (length l ≤ length items)%nat →
    chat_calls (done_events svc ui total_pages i items l) =
      map_call svc ui <$> take (length l) items.
Proof.
  induction items as [|[page content] rest IH]; intros i [|summary l] Hlen;
    simpl in *; try reflexivity; try lia.
  f_equal. apply IH. lia.
Qed.

Lemma chat_calls_failed page content e :
  chat_calls (page_failed_events svc ui page content e) =
    [map_call svc ui (page, content)].
Proof. unfold page_failed_events. destruct (exn_is_Exception e); reflexivity. Qed.
End MapCalls.

(** The completion calls of the Map Stage are those of a prefix of the
    PageSet. *)
Lemma map_stage_calls_prefix
    {World : Type} (svc : services World) (ui : widgets)
    (pages : pageset) (s : state World) :
  chat_calls (evs (generate_map_summaries svc ui pages s)) =
    map_call svc ui <$>
      take (length (chat_calls (evs (generate_map_summaries svc ui pages s))))
           pages ∧
  (length (chat_calls (evs (generate_map_summaries svc ui pages s)))
     ≤ length pages)%nat.
Proof.
  destruct (generate_map_summaries_spec svc ui pages s) as [_ [l Hl]].
  destruct Hl as [(_ & Hlen & Hevs)|(pg & ct & e & Hlook & _ & Hevs)];
    rewrite Hevs.
  - rewrite chat_calls_done by lia.
    rewrite length_fmap, length_take, Hlen, Nat.min_id, take_ge by lia.
    split; [reflexivity|lia].
  - pose proof (lookup_lt_Some _ _ _ Hlook) as Hlt.
    unfold chat_calls. rewrite omap_app.
    change (omap chat_call ?t) with (chat_calls t).
    rewrite chat_calls_done, chat_calls_failed by lia.
    rewrite length_app, length_fmap, length_take. cbn [length].
    replace (length l `min` length pages + 1)%nat with (S (length l)) by lia.
    rewrite (take_S_r _ _ _ Hlook), fmap_app.
    split; [reflexivity|lia].
Qed.

(** The Map Stage calls the completion client once per page, in iteration
    order: each call goes to "gpt-3.5-turbo" with no token limit, the system
    message of the selected mode, and the prompt built from that page's text
    and the map word budget.  A stage that returns has made exactly one call
    for every page of the PageSet, and returns the responses of these calls.
    A stage that raises [e] has made the calls of the pages up to the first
    one whose call raised, which raised [e], and no call after it. *)
Theorem map_stage_calls
    {World : Type} (svc : services World) (ui : widgets)
    (pages : pageset) (s : state World) :
  match res (generate_map_summaries svc ui pages s) with
  | Returned l =>
      length l = length pages ∧
      chat_calls (evs (generate_map_summaries svc ui pages s)) =
        map_call svc ui <$> pages ∧
      chat_responses (evs (generate_map_summaries svc ui pages s)) =
        Returned <$> l
  | Raised e =>
      ∃ l,
        (length l < length pages)%nat ∧
        chat_calls (evs (generate_map_summaries svc ui pages s)) =
          map_call svc ui <$> take (S (length l)) pages ∧
        chat_responses (evs (generate_map_summaries svc ui pages s)) =
          (Returned <$> l) ++ [Raised e]
  end.
Proof.
  destruct (generate_map_summaries_spec svc ui pages s) as [_ [l Hl]].
  destruct Hl as [(Hres & Hlen & Hevs)|(pg & ct & e & Hlook & Hres & Hevs)];
    rewrite Hres, Hevs.
  - split; [exact Hlen|].
    rewrite chat_calls_done, chat_responses_done by lia.
    rewrite Hlen, take_ge by lia. split; reflexivity.
  - pose proof (lookup_lt_Some _ _ _ Hlook) as Hlt.
    exists l. split; [exact Hlt|].
    unfold chat_calls, chat_responses. rewrite !omap_app.
    change (omap chat_call ?t) with (chat_calls t).
    change (omap chat_response ?t) with (chat_responses t).
    rewrite chat_calls_done, chat_calls_failed by lia.
    rewrite chat_responses_done, chat_responses_failed by lia.
    rewrite (take_S_r _ _ _ Hlook), fmap_app. split; reflexivity.
Qed.

(** The Map Stage stops at the first failed completion call: a failed
    response is the last of the run, every call before it succeeded, and the
    stage raises that failure. *)
Theorem map_stage_fail_fast
    {World : Type} (svc : services World) (ui : widgets)
    (pages : pageset) (s : state World) (i : nat) (e : exn) :
  chat_responses (evs (generate_map_summaries svc ui pages s)) !! i
    = Some (Raised e) →
  S i = length (chat_responses (evs (generate_map_summaries svc ui pages s))) ∧
  res (generate_map_summaries svc ui pages s) = Raised e ∧
  ∀ j, (j < i)%nat →
    ∃ summary,
      chat_responses (evs (generate_map_summaries svc ui pages s)) !! j
        = Some (Returned summary).
Proof.
  intros Hfail.
  destruct (generate_map_summaries_spec svc ui pages s) as [_ [l Hl]].
  destruct Hl as [(_ & Hlen & Hevs)|(pg & ct & e' & Hlook & Hres & Hevs)];
    rewrite Hevs in Hfail |- *.
  - rewrite chat_responses_done in Hfail by lia.
    rewrite list_lookup_fmap in Hfail.
    destruct (l !! i); discriminate Hfail.
  - pose proof (lookup_lt_Some _ _ _ Hlook) as Hlt.
    unfold chat_responses in Hfail |- *. rewrite omap_app in Hfail |- *.
    change (omap chat_response ?t) with (chat_responses t) in Hfail |- *.
    rewrite chat_responses_done, chat_responses_failed in Hfail |- * by lia.
    destruct (decide (i < length l)%nat) as [Hi|Hi].
    { rewrite lookup_app_l in Hfail by (rewrite length_fmap; exact Hi).
      rewrite list_lookup_fmap in Hfail.
      destruct (l !! i); discriminate Hfail. }
    rewrite lookup_app_r in Hfail by (rewrite length_fmap; lia).
    rewrite length_fmap in Hfail.
    destruct (i - length l)%nat as [|k] eqn:Hk; [|discriminate Hfail].
    injection Hfail as ->.
    assert (i = length l) as -> by lia.
    rewrite length_app, length_fmap. cbn [length].
    split; [lia|]. split; [exact Hres|].
    intros j Hj.
    destruct (lookup_lt_is_Some_2 l j Hj) as [summary Hsum].
    exists summary.
    rewrite lookup_app_l by (rewrite length_fmap; exact Hj).
    rewrite list_lookup_fmap, Hsum. reflexivity.
Qed.

Lemma map_stage_fail_fast_witness :
  res (generate_map_summaries (Stub.services (Returned [])) (Stub.ui Research 1 3)
         [(1, "one"); (2, "two"); (3, "three")]
         (Stub.initial [Returned "first"; Raised Stub.boom; Returned "third"]))
    = Raised Stub.boom ∧
  length (chat_responses
    (evs (generate_map_summaries (Stub.services (Returned [])) (Stub.ui Research 1 3)
         [(1, "one"); (2, "two"); (3, "three")]
         (Stub.initial [Returned "first"; Raised Stub.boom; Returned "third"]))))
    = 2%nat.
Proof.
  destruct (map_stage_fail_fast (Stub.services (Returned [])) (Stub.ui Research 1 3)
              [(1, "one"); (2, "two"); (3, "three")]
              (Stub.initial [Returned "first"; Raised Stub.boom; Returned "third"])
              1 Stub.boom) as (Hlen & Hres & _).
  - vm_compute. reflexivity.
  - split; [exact Hres|]. symmetry. exact Hlen.
Defined.

(** A Map Stage that fails has still reported and logged the pages done
    before: with [l] the summaries that the completion calls returned before
    the one that raised, the sink has received the fractions of the indices
    below [length l] and the log holds exactly these summaries, each with the
    number of its page. *)
Theorem map_stage_partial_effects
    {World : Type} (svc : services World) (ui : widgets)
    (pages : pageset) (s : state World) (e : exn) :
  res (generate_map_summaries svc ui pages s) = Raised e →
  ∃ l,
    (length l < length pages)%nat ∧
    chat_responses (evs (generate_map_summaries svc ui pages s))
      = (Returned <$> l) ++ [Raised e] ∧
    progress_values (evs (generate_map_summaries svc ui pages s)) =
      (λ i, fraction i (length pages)) <$> seq 0 (length l) ∧
    logged_summaries (evs (generate_map_summaries svc ui pages s)) =
      zip (take (length l) pages.*1) l.
Proof.
  intros Hraised.
  destruct (generate_map_summaries_spec svc ui pages s) as [_ [l Hl]].
  destruct Hl as [(Hres & _ & _)|(pg & ct & e' & Hlook & Hres & Hevs)].
  { rewrite Hres in Hraised. discriminate Hraised. }
  rewrite Hres in Hraised. injection Hraised as ->.
  pose proof (lookup_lt_Some _ _ _ Hlook) as Hlt.
  exists l. split; [exact Hlt|]. rewrite Hevs.
  unfold chat_responses, progress_values, logged_summaries.
  rewrite !omap_app.
  change (omap chat_response ?t) with (chat_responses t).
  change (omap progress_value ?t) with (progress_values t).
  change (omap logged_summary ?t) with (logged_summaries t).
  rewrite chat_responses_done, progress_values_done, logged_summaries_done by lia.
  rewrite chat_responses_failed, progress_values_failed, logged_summaries_failed.
  rewrite !app_nil_r. split; [reflexivity|]. split; reflexivity.
Qed.

Lemma map_stage_partial_effects_witness :
  ∃ l,
    (length l < 3)%nat ∧
    chat_responses
      (evs (generate_map_summaries (Stub.services (Returned [])) (Stub.ui Research 1 3)
         [(1, "one"); (2, "two"); (3, "three")]
         (Stub.initial [Returned "first"; Raised Stub.boom])))
      = (Returned <$> l) ++ [Raised Stub.boom] ∧
    progress_values
      (evs (generate_map_summaries (Stub.services (Returned [])) (Stub.ui Research 1 3)
         [(1, "one"); (2, "two"); (3, "three")]
         (Stub.initial [Returned "first"; Raised Stub.boom]))) =
      (λ i, fraction i 3) <$> seq 0 (length l) ∧
    logged_summaries
      (evs (generate_map_summaries (Stub.services (Returned [])) (Stub.ui Research 1 3)
         [(1, "one"); (2, "two"); (3, "three")]
         (Stub.initial [Returned "first"; Raised Stub.boom]))) =
      zip (take (length l) [1; 2; 3]) l.
Proof.
  apply (map_stage_partial_effects (Stub.services (Returned []))
           (Stub.ui Research 1 3) [(1, "one"); (2, "two"); (3, "three")]
           (Stub.initial [Returned "first"; Raised Stub.boom]) Stub.boom).
  vm_compute. reflexivity.
Defined.

(** ** The values handed to the progress bar *)

Lemma inject_Z_nat_pos (n : nat) : n ≠ 0%nat → (0 < inject_Z (Z.of_nat n))%Q.
Proof.
  intros Hn. change 0%Q with (inject_Z 0). rewrite <- Zlt_Qlt. lia.
Qed.

Lemma fraction_pos (i n : nat) : n ≠ 0%nat → (0 < fraction i n)%Q.
Proof.
  intros Hn. rewrite fraction_value.
  apply Qlt_shift_div_l; [apply inject_Z_nat_pos; exact Hn|].
  rewrite Qmult_0_l. change 0%Q with (inject_Z 0). rewrite <- Zlt_Qlt. lia.
Qed.

Lemma fraction_le_1 (i n : nat) : (i < n)%nat → (fraction i n <= 1)%Q.
Proof.
  intros Hi. rewrite fraction_value.
  apply Qle_shift_div_r; [apply inject_Z_nat_pos; lia|].
  rewrite Qmult_1_l, <- Zle_Qle. lia.
Qed.

Lemma fraction_lt (i j n : nat) :
  n ≠ 0%nat → (i < j)%nat → (fraction i n < fraction j n)%Q.
Proof.
  intros Hn Hij. rewrite !fraction_value. unfold Qdiv.
  apply Qmult_lt_compat_r.
  - apply Qinv_lt_0_compat, inject_Z_nat_pos. exact Hn.
  - rewrite <- Zlt_Qlt. lia.
Qed.

(** In every run the sink has received the fractions of the first [k]
    indices, [k] being at most the number of pages. *)
Lemma map_stage_progress_values
    {World : Type} (svc : services World) (ui : widgets)
    (pages : pageset) (s : state World) :
  ∃ k, (k ≤ length pages)%nat ∧
       progress_values (evs (generate_map_summaries svc ui pages s)) =
         (λ i, fraction i (length pages)) <$> seq 0 k.
Proof.
  destruct (generate_map_summaries_spec svc ui pages s) as [_ [l Hl]].
  destruct Hl as [(_ & Hlen & Hevs)|(pg & ct & e & Hlook & _ & Hevs)];
    rewrite Hevs; exists (length l).
  - split; [lia|]. apply progress_values_done. lia.
  - pose proof (lookup_lt_Some _ _ _ Hlook) as Hlt.
    split; [lia|]. unfold progress_values. rewrite omap_app.
    change (omap progress_value ?t) with (progress_values t).
    rewrite progress_values_done, progress_values_failed, app_nil_r by lia.
    reflexivity.
Qed.

(** Every value the Map Stage hands to [progress_bar.progress] lies in
    (0, 1], the range the progress bar accepts, and each value is greater
    than the one before. *)
Theorem progress_in_range_and_increasing
    {World : Type} (svc : services World) (ui : widgets)
    (pages : pageset) (s : state World) :
  Forall (λ v, (0 < v)%Q ∧ (v <= 1)%Q)
         (progress_values (evs (generate_map_summaries svc ui pages s))) ∧
  ∀ i v w,
    progress_values (evs (generate_map_summaries svc ui pages s)) !! i
      = Some v →
    progress_values (evs (generate_map_summaries svc ui pages s)) !! S i
      = Some w →
    (v < w)%Q.
Proof.
  destruct (map_stage_progress_values svc ui pages s) as (k & Hk & Hvalues).
  rewrite Hvalues. split.
  - apply Forall_lookup. intros i v Hv.
    rewrite list_lookup_fmap in Hv.
    destruct (seq 0 k !! i) as [j|] eqn:Hj; [|discriminate Hv].
    apply lookup_seq in Hj as [-> Hi]. injection Hv as <-.
    split; [apply fraction_pos; lia|apply fraction_le_1; lia].
  - intros i v w Hv Hw. rewrite list_lookup_fmap in Hv, Hw.
    destruct (seq 0 k !! i) as [j|] eqn:Hj; [|discriminate Hv].
    destruct (seq 0 k !! S i) as [j'|] eqn:Hj'; [|discriminate Hw].
    apply lookup_seq in Hj as [-> Hi]. apply lookup_seq in Hj' as [-> Hi'].
    injection Hv as <-. injection Hw as <-.
    apply fraction_lt; lia.
Qed.

Lemma progress_in_range_and_increasing_witness : (1 # 2 < 1)%Q.
Proof.
  apply (proj2 (progress_in_range_and_increasing (Stub.services (Returned []))
                  (Stub.ui General 1 2)
                  [(1, "Intro text."); (2, "Methods text.")] (Stub.initial []))
               0%nat (1 # 2)%Q 1%Q);
    vm_compute; reflexivity.
Defined.

(** ** What the stages leave alone *)

(** The stages do not write the session state. *)
Lemma stages_leave_session_state_holds
    {World : Type} (svc : services World) (ui : widgets) (s : state World)
    (full_path : string) (start_page end_page : Z)
    (pages : pageset) (map_summaries : list string) :
  session (st (process_pdf svc full_path start_page end_page s)) = session s ∧
  session (st (generate_map_summaries svc ui pages s)) = session s ∧
  session (st (generate_reduce_summary svc ui map_summaries s)) = session s.
Proof.
  split; [rewrite process_pdf_spec; reflexivity|].
  split; [apply generate_map_summaries_spec|].
  rewrite generate_reduce_summary_spec. reflexivity.
Qed.

(** Loading the PDF, the Map Stage and the Reduce Stage never write
    [st.session_state]: whether they return or raise, it is as they
    found it. *)
Theorem stages_leave_session_state
    {World : Type} (svc : services World) (ui : widgets) (s : state World)
    (full_path : string) (start_page end_page : Z)
    (pages : pageset) (map_summaries : list string) :
  session (st (process_pdf svc full_path start_page end_page s)) = session s ∧
  session (st (generate_map_summaries svc ui pages s)) = session s ∧
  session (st (generate_reduce_summary svc ui map_summaries s)) = session s.
Proof. apply stages_leave_session_state_holds. Qed.

(** ** Page numbers *)

Section PageNumbers.
Context {World : Type} (svc : services World) (ui : widgets).

Lemma map_loop_ignores_page_numbers items1 :
  ∀ items2 total_pages i acc s,
    total_pages ≠ 0%nat →
    items1.*2 = items2.*2 →
    res (map_loop svc ui total_pages i items1 acc s)
      = res (map_loop svc ui total_pages i items2 acc s) ∧
    st (map_loop svc ui total_pages i items1 acc s)
      = st (map_loop svc ui total_pages i items2 acc s) ∧
    chat_calls (evs (map_loop svc ui total_pages i items1 acc s))
      = chat_calls (evs (map_loop svc ui total_pages i items2 acc s)) ∧
    progress_values (evs (map_loop svc ui total_pages i items1 acc s))
      = progress_values (evs (map_loop svc ui total_pages i items2 acc s)).
Proof.
  induction items1 as [|[page1 content1] rest1 IH];
    intros [|[page2 content2] rest2] total_pages i acc s Htotal Heq;
    try discriminate Heq.
  - repeat split.
  - cbn in Heq. injection Heq as <- Hrest.
    rewrite !map_loop_cons.
    destruct (get_chat_response svc (map_prompt_of svc ui content1)
                (user_system_message svc ui) "gpt-3.5-turbo" None (world s))
      as [[e|summary] w'] eqn:Hchat.
    + rewrite !(map_page_raised _ _ _ _ _ _ _ _ _ _ Hchat). cbn [res st evs].
      unfold page_failed_events.
      destruct (exn_is_Exception e); repeat split.
    + rewrite !(map_page_returned _ _ _ _ _ _ _ _ _ _ Htotal Hchat).
      cbv zeta. cbn [res st evs].
      destruct (IH rest2 total_pages (S i) (acc ++ [summary])
                   (State w' (session s)) Htotal Hrest)
        as (Hres & Hst & Hcalls & Hprog).
      split; [exact Hres|]. split; [exact Hst|].
      unfold chat_calls, progress_values in *. rewrite !omap_app.
      rewrite Hcalls, Hprog. split; reflexivity.
Qed.
End PageNumbers.

(** The Map Stage uses page numbers for its log records only: two PageSets
    with the same page texts in the same order, whatever their page
    numbers, give the same result, the same completion calls and the same
    progress reports, and leave the same state. *)
Theorem map_stage_ignores_page_numbers
    {World : Type} (svc : services World) (ui : widgets)
    (pages1 pages2 : pageset) (s : state World) :
  pages1.*2 = pages2.*2 →
  res (generate_map_summaries svc ui pages1 s)
    = res (generate_map_summaries svc ui pages2 s) ∧
  st (generate_map_summaries svc ui pages1 s)
    = st (generate_map_summaries svc ui pages2 s) ∧
  chat_calls (evs (generate_map_summaries svc ui pages1 s))
    = chat_calls (evs (generate_map_summaries svc ui pages2 s)) ∧
  progress_values (evs (generate_map_summaries svc ui pages1 s))
    = progress_values (evs (generate_map_summaries svc ui pages2 s)).
Proof.
  intros Heq.
  assert (Hlen : length pages1 = length pages2).
  { rewrite <- (length_fmap snd pages1), <- (length_fmap snd pages2), Heq.
    reflexivity. }
  unfold generate_map_summaries. cbv zeta. rewrite <- Hlen.
  destruct pages1 as [|p1 rest1].
  - destruct pages2; [|discriminate Hlen]. repeat split.
  - apply map_loop_ignores_page_numbers; [simpl; lia|exact Heq].
Qed.

Lemma map_stage_ignores_page_numbers_witness :
  res (generate_map_summaries (Stub.services (Returned [])) (Stub.ui Research 1 2)
         [(1, "one"); (2, "two")] (Stub.initial []))
    = res (generate_map_summaries (Stub.services (Returned [])) (Stub.ui Research 1 2)
             [(40, "one"); (7, "two")] (Stub.initial [])).
Proof.
  apply (map_stage_ignores_page_numbers (Stub.services (Returned []))
           (Stub.ui Research 1 2) [(1, "one"); (2, "two")]
           [(40, "one"); (7, "two")] (Stub.initial [])).
  reflexivity.
Defined.

(** ** The Reduce Stage *)

(** The one completion call of the Reduce Stage. *)
Lemma reduce_stage_single_call_holds
    {World : Type} (svc : services World) (ui : widgets)
    (map_summaries : list string) (s : state World) :
  chat_calls (evs (generate_reduce_summary svc ui map_summaries s))
    = [reduce_call svc ui map_summaries] ∧
  chat_responses (evs (generate_reduce_summary svc ui map_summaries s))
    = [res (generate_reduce_summary svc ui map_summaries s)] ∧
  last (evs (generate_reduce_summary svc ui map_summaries s)) =
    Some (match res (generate_reduce_summary svc ui map_summaries s) with
          | Returned _ => EvLog INFO "Completed final reduce summary!" []
          | Raised e =>
              if exn_is_Exception e
              then EvLog ERROR
                     "An error occurred while generating final summary: %s"
                     [ArgExn e]
              else EvChat (reduce_prompt_of svc ui map_summaries)
                     (user_system_message svc ui) "gpt-4-1106-preview"
                     (Some 1024) (Raised e)
          end).
Proof.
  rewrite generate_reduce_summary_spec. cbv zeta. cbn [res evs].
  destruct (fst _) as [e|final_summary].
  - destruct (exn_is_Exception e); split; [reflexivity| |reflexivity|];
      split; reflexivity.
  - split; [reflexivity|]. split; reflexivity.
Qed.

(** The Reduce Stage makes exactly one completion call, to
    "gpt-4-1106-preview" with at most 1024 tokens, the system message of
    the selected mode and the prompt built from the joined text and the
    reduce word budget; it returns what that call returned, or raises the
    exception that call raised.  What it returned is logged last; an
    exception is logged last when it is an instance of [Exception], the
    handler of line 137 catching no other: for any other exception the call
    itself is the last thing the stage did. *)
Theorem reduce_stage_single_call
    {World : Type} (svc : services World) (ui : widgets)
    (map_summaries : list string) (s : state World) :
  chat_calls (evs (generate_reduce_summary svc ui map_summaries s))
    = [reduce_call svc ui map_summaries] ∧
  chat_responses (evs (generate_reduce_summary svc ui map_summaries s))
    = [res (generate_reduce_summary svc ui map_summaries s)] ∧
  last (evs (generate_reduce_summary svc ui map_summaries s)) =
    Some (match res (generate_reduce_summary svc ui map_summaries s) with
          | Returned _ => EvLog INFO "Completed final reduce summary!" []
          | Raised e =>
              if exn_is_Exception e
              then EvLog ERROR
                     "An error occurred while generating final summary: %s"
                     [ArgExn e]
              else EvChat (reduce_prompt_of svc ui map_summaries)
                     (user_system_message svc ui) "gpt-4-1106-preview"
                     (Some 1024) (Raised e)
          end).
Proof. apply reduce_stage_single_call_holds. Qed.

(** ** Joining and cleaning the summaries *)

Lemma str_app_cons (c : ascii) (s t : string) :
  String c s +:+ t = String c (s +:+ t).
Proof. reflexivity. Qed.

Lemma str_app_nil_r (s : string) : s +:+ "" = s.
Proof.
  induction s as [|c s IH]; [reflexivity|].
  rewrite str_app_cons, IH. reflexivity.
Qed.

Lemma str_app_assoc (a b c : string) : (a +:+ b) +:+ c = a +:+ b +:+ c.
Proof.
  induction a as [|x a IH]; [reflexivity|].
  rewrite !str_app_cons, IH. reflexivity.
Qed.

Lemma keep_non_newline_app (a b : string) :
  keep_non_newline (a +:+ b) = keep_non_newline a +:+ keep_non_newline b.
Proof.
  induction a as [|x a IH]; [reflexivity|].
  rewrite str_app_cons. cbn [keep_non_newline].
  destruct (Ascii.ascii_dec newline x); [exact IH|].
  rewrite str_app_cons, IH. reflexivity.
Qed.

Lemma keep_non_newline_join (l : list string) :
  keep_non_newline (join NL l) = summaries_text l.
Proof.
  induction l as [|x rest IH]; [reflexivity|].
  destruct rest as [|y rest'].
  - cbn. rewrite str_app_nil_r. reflexivity.
  - change (join NL (x :: y :: rest')) with (x +:+ NL +:+ join NL (y :: rest')).
    rewrite !keep_non_newline_app, IH. reflexivity.
Qed.

(** The text handed to the reduce prompt holds, newlines apart, exactly the
    characters of the summaries, summary after summary: nothing of a
    summary is dropped and nothing else is added. *)
Theorem reduce_text_keeps_summaries (map_summaries : list string) :
  keep_non_newline (reduce_text map_summaries) = summaries_text map_summaries.
Proof.
  unfold reduce_text, replace, NLNL. fold NLNL.
  rewrite (proj1 (delete_nlnl_keeps_text _)). apply keep_non_newline_join.
Qed.

Lemma delete_nlnl_clean (s : string) :
  has_doubled_newline s = false → replace_from NLNL "" 0 s = s.
Proof.
  induction s as [|c rest IH]; [reflexivity|]. intros Hclean.
  rewrite replace_from_nlnl_step.
  destruct rest as [|d rest'].
  - destruct (Ascii.ascii_dec newline c); reflexivity.
  - change (has_doubled_newline (String c (String d rest'))) with
      ((if Ascii.ascii_dec newline c
        then (if Ascii.ascii_dec newline d then true else false)
        else false) || has_doubled_newline (String d rest')) in Hclean.
    apply orb_false_elim in Hclean as [Hpair Hrest].
    destruct (Ascii.ascii_dec newline c) as [Hc|Hc].
    + destruct (Ascii.ascii_dec newline d) as [Hd|Hd]; [discriminate Hpair|].
      rewrite (IH Hrest). reflexivity.
    + rewrite (IH Hrest). reflexivity.
Qed.

(** When the joined summaries hold no doubled newline, the reduce prompt
    gets them exactly as joined. *)
Theorem reduce_text_unchanged_when_clean (map_summaries : list string) :
  has_doubled_newline (join NL map_summaries) = false →
  reduce_text map_summaries = join NL map_summaries.
Proof.
  intros Hclean. unfold reduce_text, replace, NLNL. fold NLNL.
  apply delete_nlnl_clean. exact Hclean.
Qed.

Lemma reduce_text_unchanged_when_clean_witness :
  reduce_text ["Intro."; "Methods."] = join NL ["Intro."; "Methods."].
Proof.
  apply (reduce_text_unchanged_when_clean ["Intro."; "Methods."]).
  vm_compute. reflexivity.
Defined.

(** Deleting the doubled newlines once is enough: done again on its own
    result, it changes nothing. *)
Theorem reduce_text_is_stable (map_summaries : list string) :
  replace NLNL "" (reduce_text map_summaries) = reduce_text map_summaries.
Proof.
  unfold reduce_text at 1. unfold replace at 1. unfold NLNL at 1. fold NLNL.
  apply delete_nlnl_clean.
  unfold reduce_text, replace, NLNL. fold NLNL.
  apply delete_nlnl_no_doubled.
Qed.

Lemma delete_nlnl_length (s : string) :
  (∃ k, String.length s
        = (String.length (replace_from NLNL "" 0 s) + 2 * k)%nat) ∧
  ∀ c, ∃ k, String.length (String c s)
            = (String.length (replace_from NLNL "" 0 (String c s)) + 2 * k)%nat.
Proof.
  induction s as [|a s [IH1 IH2]].
  - split; [exists 0%nat; reflexivity|]. intros c.
    rewrite replace_from_nlnl_step. exists 0%nat.
    destruct (Ascii.ascii_dec newline c); reflexivity.
  - split; [apply IH2|]. intros c. rewrite replace_from_nlnl_step.
    destruct (IH2 a) as [k2 Hk2]. destruct IH1 as [k1 Hk1].
    destruct (Ascii.ascii_dec newline c) as [Hc|Hc].
    + destruct (Ascii.ascii_dec newline a) as [Ha|Ha].
      * exists (S k1). cbn [String.length]. lia.
      * exists k2. cbn [String.length] in *. lia.
    + exists k2. cbn [String.length] in *. lia.
Qed.

(** The cleaning only ever removes characters, two at a time: the text is
    never longer than the joined summaries and the difference is even. *)
Theorem reduce_text_length (map_summaries : list string) :
  ∃ k, String.length (join NL map_summaries)
       = (String.length (reduce_text map_summaries) + 2 * k)%nat.
Proof.
  unfold reduce_text, replace, NLNL. fold NLNL.
  apply delete_nlnl_length.
Qed.

(** ** The session state and the whole script *)

Lemma init_session_spec {World : Type} (s : state World) :
  init_session s =
    Outcome (Returned tt)
      (State (world s)
             (match session s !! "final_summary" with
              | Some _ => session s
              | None => <["final_summary" := None]> (session s)
              end))
      [].
Proof.
  unfold init_session, session_setitem, ret. destruct s as [w sess]. cbn.
  destruct (sess !! "final_summary"); reflexivity.
Qed.

(** Lines 42-43 keep what the session state holds. *)
Lemma init_session_keeps_entries_holds {World : Type} (s : state World) :
  (∀ k v, session s !! k = Some v →
          session (st (init_session s)) !! k = Some v) ∧
  world (st (init_session s)) = world s ∧
  is_Some (session (st (init_session s)) !! "final_summary") ∧
  st (init_session (st (init_session s))) = st (init_session s).
Proof.
  rewrite !init_session_spec. cbn [st world session].
  destruct (session s !! "final_summary") as [v0|] eqn:Hkey.
  - rewrite Hkey. split; [intros k v Hk; exact Hk|].
    split; [reflexivity|]. split; [eexists; reflexivity|reflexivity].
  - rewrite lookup_insert_eq.
    split.
    { intros k v Hk. rewrite lookup_insert_ne; [exact Hk|].
      intros <-. rewrite Hkey in Hk. discriminate Hk. }
    split; [reflexivity|]. split; [eexists; reflexivity|reflexivity].
Qed.

(** Lines 42-43 never lose anything: every entry of [st.session_state] is
    kept with its value, the outside world is not touched, the key
    ["final_summary"] is present afterwards, and running them again changes
    nothing more. *)
Theorem init_session_keeps_entries {World : Type} (s : state World) :
  (∀ k v, session s !! k = Some v →
          session (st (init_session s)) !! k = Some v) ∧
  world (st (init_session s)) = world s ∧
  is_Some (session (st (init_session s)) !! "final_summary") ∧
  st (init_session (st (init_session s))) = st (init_session s).
Proof. apply init_session_keeps_entries_holds. Qed.

Lemma init_session_keeps_entries_witness :
  session (st (init_session
                 (State (tt : unit)
                        ({["language" := Some "en"]} : gmap string (option string)))))
    !! "language" = Some (Some "en").
Proof.
  apply (proj1 (init_session_keeps_entries
                  (State (tt : unit)
                         ({["language" := Some "en"]} : gmap string (option string))))).
  vm_compute. reflexivity.
Defined.

Lemma chat_calls_app (a b : list event) :
  chat_calls (a ++ b) = chat_calls a ++ chat_calls b.
Proof. apply omap_app. Qed.

Lemma chat_calls_status kind body (t : list event) :
  chat_calls (EvStatus kind body :: t) = chat_calls t.
Proof. reflexivity. Qed.

Lemma chat_responses_app (a b : list event) :
  chat_responses (a ++ b) = chat_responses a ++ chat_responses b.
Proof. apply omap_app. Qed.

Lemma chat_responses_status kind body (t : list event) :
  chat_responses (EvStatus kind body :: t) = chat_responses t.
Proof. reflexivity. Qed.

Section WholeScript.
Context {World : Type} (svc : services World) (ui : widgets).

Lemma script_idle_spec s :
  generate_clicked ui = false ∨ uploaded_file ui = None →
  script svc ui s =
    Outcome (Returned tt) (st (init_session s))
      [EvLog INFO "%s mode-specific prompts have been initialized."
             [ArgStr (mode_name (selected_mode ui))]].
Proof.
  intros Hidle. unfold script, mbind, py_bind, bind, logging, emit.
  rewrite init_session_spec. cbn [res st evs app].
  destruct Hidle as [H|H]; rewrite H.
  - reflexivity.
  - destruct (generate_clicked ui); reflexivity.
Qed.

Lemma process_pdf_no_chat full_path start_page end_page s :
  chat_calls (evs (process_pdf svc full_path start_page end_page s)) = [] ∧
  chat_responses (evs (process_pdf svc full_path start_page end_page s)) = [].
Proof.
  rewrite process_pdf_spec. cbv zeta. cbn [evs].
  destruct (fst _) as [e|pgs]; [destruct (exn_is_Exception e)|];
    split; reflexivity.
Qed.

(** The completion calls of a pipeline run: the calls of the Map Stage,
    followed, when it returned, by the call of the Reduce Stage. *)
Lemma pipeline_chat_calls s :
  chat_calls (evs (pipeline svc ui s)) =
    match res (process_pdf svc TEMP_PDF_PATH (user_start_page ui)
                 (user_end_page ui) s) with
    | Raised _ => []
    | Returned pages =>
        let s1 := st (process_pdf svc TEMP_PDF_PATH (user_start_page ui)
                        (user_end_page ui) s) in
        chat_calls (evs (generate_map_summaries svc ui pages s1)) ++
        match res (generate_map_summaries svc ui pages s1) with
        | Raised _ => []
        | Returned map_summaries => [reduce_call svc ui map_summaries]
        end
    end.
Proof.
  rewrite pipeline_unfold. cbv zeta.
  pose proof (process_pdf_no_chat TEMP_PDF_PATH (user_start_page ui)
                (user_end_page ui) s) as [Hpdf _].
  destruct (res (process_pdf svc TEMP_PDF_PATH _ _ s)) as [e1|pages].
  { cbn [evs]. exact Hpdf. }
  destruct (res (generate_map_summaries svc ui pages _)) as [e2|sums].
  { cbn [evs]. unfold step1.
    rewrite chat_calls_app, chat_calls_status, Hpdf, app_nil_r. reflexivity. }
  pose proof (reduce_stage_single_call_holds svc ui sums
    (st (generate_map_summaries svc ui pages
      (st (process_pdf svc TEMP_PDF_PATH (user_start_page ui)
             (user_end_page ui) s))))) as [Hred _].
  destruct (res (generate_reduce_summary svc ui sums _)) as [e3|f];
    cbn [evs]; unfold step1, step2, completed;
    rewrite chat_calls_app, chat_calls_status, Hpdf;
    rewrite chat_calls_app, chat_calls_status.
  - rewrite Hred. reflexivity.
  - rewrite chat_calls_app, Hred. reflexivity.
Qed.

Lemma outcome_statuses_app (a b : list event) :
  outcome_statuses (a ++ b) = outcome_statuses a ++ outcome_statuses b.
Proof. apply omap_app. Qed.

Lemma outcome_statuses_info body (t : list event) :
  outcome_statuses (EvStatus StInfo body :: t) = outcome_statuses t.
Proof. reflexivity. Qed.

Lemma outcome_statuses_done total_pages items :
  ∀ i l, outcome_statuses (done_events svc ui total_pages i items l) = [].
Proof.
  induction items as [|[page content] rest IH]; intros i [|summary l];
    try reflexivity.
  simpl. apply IH.
Qed.

(** No stage shows an outcome status of its own. *)
Lemma stages_no_outcome_status full_path start_page end_page pages
    map_summaries s :
  outcome_statuses (evs (process_pdf svc full_path start_page end_page s)) = [] ∧
  outcome_statuses (evs (generate_map_summaries svc ui pages s)) = [] ∧
  outcome_statuses (evs (generate_reduce_summary svc ui map_summaries s)) = [].
Proof.
  split; [|split].
  - rewrite process_pdf_spec. cbv zeta. cbn [evs].
    destruct (fst _) as [e|pgs]; [destruct (exn_is_Exception e)|]; reflexivity.
  - destruct (generate_map_summaries_spec svc ui pages s) as [_ [l Hl]].
    destruct Hl as [(_ & _ & Hevs)|(pg & ct & e & _ & _ & Hevs)]; rewrite Hevs.
    + apply outcome_statuses_done.
    + rewrite outcome_statuses_app, outcome_statuses_done.
      unfold page_failed_events. destruct (exn_is_Exception e); reflexivity.
  - rewrite generate_reduce_summary_spec. cbv zeta. cbn [evs].
    destruct (fst _) as [e|f]; [destruct (exn_is_Exception e)|]; reflexivity.
Qed.

(** The pipeline shows the success status, once, when it returns, and no
    outcome status when it raises. *)
Lemma pipeline_outcome_statuses s :
  outcome_statuses (evs (pipeline svc ui s)) =
    match res (pipeline svc ui s) with
    | Returned _ => [(StSuccess, "Summary generation completed successfully!")]
    | Raised _ => []
    end.
Proof.
  rewrite pipeline_unfold. cbv zeta.
  pose proof (stages_no_outcome_status TEMP_PDF_PATH (user_start_page ui)
                (user_end_page ui) [] [] s) as [H1 _].
  destruct (res (process_pdf svc TEMP_PDF_PATH _ _ s)) as [e1|pages];
    cbn [res evs]; [exact H1|].
  pose proof (stages_no_outcome_status TEMP_PDF_PATH 0 0 pages []
    (st (process_pdf svc TEMP_PDF_PATH (user_start_page ui)
           (user_end_page ui) s))) as (_ & H2 & _).
  destruct (res (generate_map_summaries svc ui pages _)) as [e2|sums];
    cbn [res evs].
  { unfold step1. rewrite outcome_statuses_app, outcome_statuses_info, H1, H2.
    reflexivity. }
  pose proof (stages_no_outcome_status TEMP_PDF_PATH 0 0 [] sums
    (st (generate_map_summaries svc ui pages
      (st (process_pdf svc TEMP_PDF_PATH (user_start_page ui)
             (user_end_page ui) s))))) as (_ & _ & H3).
  destruct (res (generate_reduce_summary svc ui sums _)) as [e3|f];
    cbn [res evs]; unfold step1, step2, completed;
    rewrite outcome_statuses_app, outcome_statuses_info, H1;
    rewrite outcome_statuses_app, outcome_statuses_info, H2.
  - rewrite H3. reflexivity.
  - rewrite outcome_statuses_app, H3. reflexivity.
Qed.

Lemma pipeline_raised_last s e :
  res (pipeline svc ui s) = Raised e →
  last (evs (pipeline svc ui s)) ≠ Some completed.
Proof.
  intros Hres Hlast.
  pose proof (pipeline_outcome_statuses s) as H. rewrite Hres in H.
  apply last_Some in Hlast as [t Ht].
  rewrite Ht, outcome_statuses_app in H.
  apply (f_equal length) in H. rewrite length_app in H.
  cbn [completed outcome_statuses omap list_omap outcome_status length] in H.
  lia.
Qed.
End WholeScript.

(** The pipeline when all its stages return. *)
Lemma pipeline_success_holds
    {World : Type} (svc : services World) (ui : widgets) (s : state World)
    (u : unit) :
  res (pipeline svc ui s) = Returned u →
  ∃ pages map_summaries final_summary,
    res (process_pdf svc TEMP_PDF_PATH (user_start_page ui) (user_end_page ui) s)
      = Returned pages ∧
    length map_summaries = length pages ∧
    chat_calls (evs (pipeline svc ui s)) =
      (map_call svc ui <$> pages) ++ [reduce_call svc ui map_summaries] ∧
    chat_responses (evs (pipeline svc ui s)) =
      (Returned <$> map_summaries) ++ [Returned final_summary] ∧
    session (st (pipeline svc ui s)) =
      <["final_summary" := Some final_summary]> (session s) ∧
    last (evs (pipeline svc ui s)) = Some completed.
Proof.
  intros Hret.
  pose proof (pipeline_chat_calls svc ui s) as Hcalls.
  pose proof (pipeline_returned_last svc ui s u Hret) as Hlast.
  pose proof (pipeline_unfold svc ui s) as Hunf.
  rewrite pipeline_unfold in Hret. cbv zeta in *.
  pose proof (process_pdf_no_chat svc TEMP_PDF_PATH (user_start_page ui)
                (user_end_page ui) s) as [_ Hpdf].
  pose proof (stages_leave_session_state_holds svc ui s TEMP_PDF_PATH
                (user_start_page ui) (user_end_page ui) [] []) as [Hs1 _].
  destruct (res (process_pdf svc TEMP_PDF_PATH _ _ s)) as [e1|pages];
    [discriminate Hret|].
  set (s1 := st (process_pdf svc TEMP_PDF_PATH (user_start_page ui)
                   (user_end_page ui) s)) in *.
  destruct (generate_map_summaries_spec svc ui pages s1) as [Hs2 [l Hl]].
  pose proof (map_stage_calls_prefix svc ui pages s1) as [Hmapcalls _].
  destruct (res (generate_map_summaries svc ui pages s1)) as [e2|sums] eqn:R2;
    [discriminate Hret|].
  destruct Hl as [(Hres & Hlen & Hevs)|(pg & ct & e & _ & Hres & _)];
    [|discriminate Hres].
  injection Hres as <-.
  set (s2 := st (generate_map_summaries svc ui pages s1)) in *.
  pose proof (reduce_stage_single_call_holds svc ui sums s2) as (_ & Hredresp & _).
  pose proof (stages_leave_session_state_holds svc ui s2 TEMP_PDF_PATH 0 0 [] sums)
    as (_ & _ & Hs3).
  destruct (res (generate_reduce_summary svc ui sums s2)) as [e3|f] eqn:R3;
    [discriminate Hret|].
  exists pages, sums, f.
  split; [reflexivity|]. split; [exact Hlen|].
  split.
  { rewrite Hcalls, Hmapcalls.
    assert (Hn : length (chat_calls (evs (generate_map_summaries svc ui pages s1)))
                 = length pages).
    { rewrite Hevs, chat_calls_done by lia.
      rewrite length_fmap, length_take. lia. }
    rewrite Hn, take_ge by lia. reflexivity. }
  split.
  { rewrite Hunf. cbn [evs]. unfold step1, step2, completed.
    rewrite chat_responses_app, chat_responses_status, Hpdf.
    rewrite chat_responses_app, chat_responses_status.
    rewrite chat_responses_app, Hredresp.
    rewrite Hevs, chat_responses_done by lia. reflexivity. }
  split; [|exact Hlast].
  rewrite Hunf. cbn [st session]. rewrite Hs3, Hs2, Hs1. reflexivity.
Qed.

(** A pipeline run that returns has called the completion client once per
    extracted page and then once for the reduction, on the summaries those
    calls returned; every call succeeded; the response of the last one is
    what it stored under ["final_summary"], nothing else of the session
    state being changed; and it ends with the success status. *)
Theorem pipeline_success
    {World : Type} (svc : services World) (ui : widgets) (s : state World)
    (u : unit) :
  res (pipeline svc ui s) = Returned u →
  ∃ pages map_summaries final_summary,
    res (process_pdf svc TEMP_PDF_PATH (user_start_page ui) (user_end_page ui) s)
      = Returned pages ∧
    length map_summaries = length pages ∧
    chat_calls (evs (pipeline svc ui s)) =
      (map_call svc ui <$> pages) ++ [reduce_call svc ui map_summaries] ∧
    chat_responses (evs (pipeline svc ui s)) =
      (Returned <$> map_summaries) ++ [Returned final_summary] ∧
    session (st (pipeline svc ui s)) =
      <["final_summary" := Some final_summary]> (session s) ∧
    last (evs (pipeline svc ui s)) = Some completed.
Proof. apply pipeline_success_holds. Qed.

Lemma pipeline_success_witness :
  ∃ pages map_summaries final_summary,
    res (process_pdf (Stub.services (Returned [(1, "one"); (2, "two")]))
           TEMP_PDF_PATH 1 2 (Stub.initial [])) = Returned pages ∧
    length map_summaries = length pages ∧
    chat_calls (evs (pipeline (Stub.services (Returned [(1, "one"); (2, "two")]))
                       (Stub.ui General 1 2) (Stub.initial []))) =
      (map_call (Stub.services (Returned [(1, "one"); (2, "two")]))
                (Stub.ui General 1 2) <$> pages) ++
      [reduce_call (Stub.services (Returned [(1, "one"); (2, "two")]))
                   (Stub.ui General 1 2) map_summaries] ∧
    chat_responses (evs (pipeline (Stub.services (Returned [(1, "one"); (2, "two")]))
                           (Stub.ui General 1 2) (Stub.initial []))) =
      (Returned <$> map_summaries) ++ [Returned final_summary] ∧
    session (st (pipeline (Stub.services (Returned [(1, "one"); (2, "two")]))
                   (Stub.ui General 1 2) (Stub.initial []))) =
      <["final_summary" := Some final_summary]> (session (Stub.initial [])) ∧
    last (evs (pipeline (Stub.services (Returned [(1, "one"); (2, "two")]))
                 (Stub.ui General 1 2) (Stub.initial []))) = Some completed.
Proof.
  apply (pipeline_success (Stub.services (Returned [(1, "one"); (2, "two")]))
           (Stub.ui General 1 2) (Stub.initial []) tt).
  vm_compute. reflexivity.
Defined.

(** When the extractor returns no page at all, the pipeline does not stop:
    the Map Stage calls nothing, and the Reduce Stage still makes its one
    completion call, on the prompt built from the empty text. *)
Theorem pipeline_on_empty_extraction
    {World : Type} (svc : services World) (ui : widgets) (s : state World) :
  res (process_pdf svc TEMP_PDF_PATH (user_start_page ui) (user_end_page ui) s)
    = Returned [] →
  chat_calls (evs (pipeline svc ui s)) =
    [(build_prompt svc REDUCE_PROMPT_RESEARCH "" (user_reduce_words ui),
      user_system_message svc ui, "gpt-4-1106-preview", Some 1024)].
Proof.
  intros Hpdf. rewrite pipeline_chat_calls, Hpdf. reflexivity.
Qed.

Lemma pipeline_on_empty_extraction_witness :
  chat_calls (evs (pipeline (Stub.services (Returned [])) (Stub.ui General 5 2)
                     (Stub.initial []))) =
    [("", "You are a helpful assistant.", "gpt-4-1106-preview", Some 1024)].
Proof.
  apply (pipeline_on_empty_extraction (Stub.services (Returned []))
           (Stub.ui General 5 2) (Stub.initial [])).
  reflexivity.
Defined.



(** Unless the button was clicked and a file is uploaded, the script does
    nothing outside: it writes no file, extracts nothing, calls no model,
    leaves the outside world as it is, and only initialises the session
    state. *)
Theorem script_idle
    {World : Type} (svc : services World) (ui : widgets) (s : state World) :
  generate_clicked ui = false ∨ uploaded_file ui = None →
  Forall (λ ev, is_external_call ev = false) (evs (script svc ui s)) ∧
  world (st (script svc ui s)) = world s ∧
  session (st (script svc ui s)) = session (st (init_session s)).
Proof.
  intros Hidle. rewrite (script_idle_spec svc ui s Hidle). cbn [st evs].
  split; [repeat constructor|]. split; [|reflexivity].
  apply init_session_keeps_entries_holds.
Qed.

Lemma script_idle_witness :
  world (st (script (Stub.services (Returned [(1, "one")]))
               (Widgets General 150 300 None 1 10 true)
               (Stub.initial [Returned "unused"])))
    = [Returned "unused"].
Proof.
  apply (script_idle (Stub.services (Returned [(1, "one")]))
           (Widgets General 150 300 None 1 10 true)
           (Stub.initial [Returned "unused"])).
  right. reflexivity.
Defined.

(** A run started by the button, once the upload is written to [temp.pdf],
    shows exactly one outcome status, and shows it last: the success message
    when the pipeline returned; the error message made of
    "An error occurred: " and the text of the exception when the pipeline
    raised an instance of [Exception].  When the pipeline raised anything
    else, line 165 does not catch it: no outcome status is shown and the
    script ends with that exception. *)
Theorem script_reports_outcome
    {World : Type} (svc : services World) (ui : widgets) (s : state World)
    (data : string) :
  generate_clicked ui = true →
  uploaded_file ui = Some data →
  fst (write_file svc TEMP_PDF_PATH data (world (st (init_session s))))
    = Returned tt →
  match res (pipeline svc ui (entry_state svc data s)) with
  | Returned _ =>
      res (script svc ui s) = Returned tt ∧
      outcome_statuses (evs (script svc ui s)) =
        [(StSuccess, "Summary generation completed successfully!")] ∧
      last (evs (script svc ui s)) = Some completed
  | Raised err =>
      if exn_is_Exception err
      then
        res (script svc ui s) = Returned tt ∧
        outcome_statuses (evs (script svc ui s)) =
          [(StError, "An error occurred: " +:+ exn_msg err)] ∧
        last (evs (script svc ui s)) =
          Some (EvStatus StError ("An error occurred: " +:+ exn_msg err))
      else
        res (script svc ui s) = Raised err ∧
        outcome_statuses (evs (script svc ui s)) = []
  end.
Proof.
  intros Hclick Hfile Hw.
  rewrite (script_clicked_written svc ui data s Hclick Hfile Hw).
  cbv zeta. cbn [res evs].
  pose proof (pipeline_outcome_statuses svc ui (entry_state svc data s)) as Hst.
  destruct (res (pipeline svc ui (entry_state svc data s))) as [err|u] eqn:Hres.
  - destruct (exn_is_Exception err).
    + split; [reflexivity|]. split.
      * rewrite !outcome_statuses_app, Hst. reflexivity.
      * rewrite !app_assoc. apply last_snoc.
    + split; [reflexivity|]. rewrite !outcome_statuses_app, Hst. reflexivity.
  - split; [reflexivity|]. split.
    + rewrite !outcome_statuses_app, Hst. reflexivity.
    + rewrite app_nil_r, last_app.
      rewrite (pipeline_returned_last svc ui _ u Hres). reflexivity.
Qed.

Lemma script_reports_outcome_witness :
  res (script (Stub.services (Raised Stub.boom)) (Stub.ui General 1 2)
         (Stub.initial [])) = Returned tt ∧
  outcome_statuses
    (evs (script (Stub.services (Raised Stub.boom)) (Stub.ui General 1 2)
            (Stub.initial []))) =
    [(StError, "An error occurred: service unavailable")] ∧
  last (evs (script (Stub.services (Raised Stub.boom)) (Stub.ui General 1 2)
               (Stub.initial []))) =
    Some (EvStatus StError "An error occurred: service unavailable").
Proof.
  exact (script_reports_outcome (Stub.services (Raised Stub.boom))
           (Stub.ui General 1 2) (Stub.initial []) "%PDF-1.4"
           eq_refl eq_refl eq_refl).
Defined.

(** Unlike the templates, the system message follows the selected mode:
    every completion call of the script carries the system message of that
    mode, the default one of [genaipy] for General and the one of
    [prompts.py] for Research. *)
Theorem system_message_follows_mode
    {World : Type} (svc : services World) (ui : widgets) (s : state World) :
  Forall (λ call, call.1.1.2 =
            match selected_mode ui with
            | General => DEFAULT_SYS_MESSAGE svc
            | Research => SYS_MESSAGE_RESEARCH
            end)
         (chat_calls (evs (script svc ui s))).
Proof.
  assert (Hsys : user_system_message svc ui =
                 match selected_mode ui with
                 | General => DEFAULT_SYS_MESSAGE svc
                 | Research => SYS_MESSAGE_RESEARCH
                 end).
  { unfold user_system_message. destruct (selected_mode ui); reflexivity. }
  rewrite <- Hsys.
  assert (Hpipe : ∀ s', Forall (λ call, call.1.1.2 = user_system_message svc ui)
                          (chat_calls (evs (pipeline svc ui s')))).
  { intros s'. rewrite pipeline_chat_calls.
    destruct (res (process_pdf svc TEMP_PDF_PATH _ _ s')) as [e1|pages];
      [constructor|].
    cbv zeta. apply Forall_app. split.
    - rewrite (proj1 (map_stage_calls_prefix svc ui pages _)).
      apply Forall_fmap, Forall_true. intros item. reflexivity.
    - destruct (res (generate_map_summaries svc ui pages _)); repeat constructor. }
  destruct (generate_clicked ui) eqn:Hclick;
    [destruct (uploaded_file ui) as [data|] eqn:Hfile|].
  - rewrite (script_clicked svc ui data s Hclick Hfile).
    destruct (fst (write_file svc TEMP_PDF_PATH data _)) as [e|u0];
      [constructor|].
    cbv zeta. cbn [evs].
    rewrite !chat_calls_app.
    apply Forall_app. split; [constructor|].
    apply Forall_app. split; [apply Hpipe|].
    destruct (res (pipeline svc ui _)) as [err|u];
      [destruct (exn_is_Exception err)|]; constructor.
  - rewrite script_idle_spec by (right; exact Hfile). constructor.
  - rewrite script_idle_spec by (left; exact Hclick). constructor.
Qed.

(** ** What the page shows after a run *)

Lemma display_shows (file_format : string)
    (session : gmap string (option string)) (summary : string) :
  session !! "final_summary" = Some (Some summary) →
  summary ≠ "" →
  ∃ els,
    display file_format session =
      Returned (Subheader "Final Summary" :: Markdown summary :: els) ∧
    ∀ label data file_name mime,
      In (DownloadButton label data file_name mime) els →
      data = summary ∧
      ((file_format = "Text File (.txt)" ∧
        file_name = "summary.txt" ∧ mime = "text/plain") ∨
       (file_format = "Markdown File (.md)" ∧
        file_name = "summary.md" ∧ mime = "text/markdown")).
Proof.
  intros Hkey Hne. unfold display. rewrite Hkey.
  destruct summary as [|c r]; [congruence|]. cbn [truthy default].
  eexists. split; [reflexivity|].
  intros label data file_name mime Hin.
  destruct Hin as [Hin|Hin]; [discriminate Hin|].
  destruct (decide (file_format = "Text File (.txt)")) as [Htxt|Htxt].
  - destruct Hin as [Hin|[]]. injection Hin as <- <- <- <-.
    split; [reflexivity|]. left. split; [exact Htxt|]. split; reflexivity.
  - destruct (decide (file_format = "Markdown File (.md)")) as [Hmd|Hmd].
    + destruct Hin as [Hin|[]]. injection Hin as <- <- <- <-.
      split; [reflexivity|]. right. split; [exact Hmd|]. split; reflexivity.
    + destruct Hin.
Qed.

Section AfterRun.
Context {World : Type} (svc : services World) (ui : widgets).

(** The session state after one execution: either the run did not end
    with the success status and the state is the initialised one, or it did
    and the response of the last completion call has been stored. *)
Lemma script_session_cases s :
  (last (evs (script svc ui s)) ≠ Some completed ∧
   session (st (script svc ui s)) = session (st (init_session s))) ∨
  (last (evs (script svc ui s)) = Some completed ∧
   ∃ final_summary,
     last (chat_responses (evs (script svc ui s)))
       = Some (Returned final_summary) ∧
     session (st (script svc ui s)) =
       <["final_summary" := Some final_summary]>
         (session (st (init_session s)))).
Proof.
  destruct (generate_clicked ui) eqn:Hclick;
    [destruct (uploaded_file ui) as [data|] eqn:Hfile|].
  - rewrite (script_clicked svc ui data s Hclick Hfile).
    destruct (fst (write_file svc TEMP_PDF_PATH data _)) as [e|u0].
    { left. cbn [st evs]. split; [discriminate|reflexivity]. }
    cbv zeta. cbn [st evs].
    destruct (res (pipeline svc ui (entry_state svc data s))) as [err|u] eqn:Hres.
    + left. split.
      * destruct (exn_is_Exception err).
        { rewrite !app_assoc, last_snoc. discriminate. }
        rewrite app_nil_r, last_app.
        destruct (last (evs (pipeline svc ui (entry_state svc data s))))
          as [ev|] eqn:Hl; [|discriminate].
        intros Heq. injection Heq as ->.
        exact (pipeline_raised_last svc ui _ err Hres Hl).
      * rewrite (pipeline_raised_session svc ui _ err Hres). reflexivity.
    + right.
      destruct (pipeline_success_holds svc ui _ u Hres)
        as (pages & sums & f & _ & _ & _ & Hresp & Hsess & Hlast).
      split.
      * rewrite app_nil_r, last_app, Hlast. reflexivity.
      * exists f. split; [|exact Hsess].
        rewrite app_nil_r, chat_responses_app, Hresp.
        change (chat_responses (script_preamble ui data)) with (@nil (result string)).
        cbn [app]. apply last_snoc.
  - left. rewrite script_idle_spec by (right; exact Hfile). cbn [st evs].
    split; [discriminate|reflexivity].
  - left. rewrite script_idle_spec by (left; exact Hclick). cbn [st evs].
    split; [discriminate|reflexivity].
Qed.

Lemma script_key_present s :
  is_Some (session (st (script svc ui s)) !! "final_summary").
Proof.
  destruct (script_session_cases s) as [[_ Hsess]|[_ (f & _ & Hsess)]];
    rewrite Hsess.
  - apply init_session_keeps_entries_holds.
  - rewrite lookup_insert_eq. eexists. reflexivity.
Qed.
End AfterRun.

(** After the script has run, showing the summary never fails for a
    missing key: lines 42-43 and the run leave ["final_summary"] in the
    session state, so the subscript of line 169 finds it. *)
Theorem display_after_script_finds_key
    {World : Type} (svc : services World) (ui : widgets) (s : state World)
    (file_format : string) :
  ∃ els, display file_format (session (st (script svc ui s))) = Returned els.
Proof.
  destruct (script_key_present svc ui s) as [v Hv].
  unfold display. rewrite Hv. destruct (truthy v); eexists; reflexivity.
Qed.

(** After a run that ended with the success status the page shows what the
    last completion call, the one of the Reduce Stage, returned, and offers
    that same text for download; but when that call returned the empty
    string nothing is shown at all, success status notwithstanding. *)
Theorem summary_shown_after_success
    {World : Type} (svc : services World) (ui : widgets) (s : state World)
    (file_format : string) :
  last (evs (script svc ui s)) = Some completed →
  ∃ final_summary,
    last (chat_responses (evs (script svc ui s)))
      = Some (Returned final_summary) ∧
    (final_summary = "" →
     display file_format (session (st (script svc ui s))) = Returned []) ∧
    (final_summary ≠ "" →
     ∃ els,
       display file_format (session (st (script svc ui s))) =
         Returned (Subheader "Final Summary" :: Markdown final_summary :: els) ∧
       ∀ label data file_name mime,
         In (DownloadButton label data file_name mime) els →
         data = final_summary).
Proof.
  intros Hlast.
  destruct (script_session_cases svc ui s) as [[Hne _]|[_ (f & Hresp & Hsess)]];
    [contradiction|].
  exists f. split; [exact Hresp|]. rewrite Hsess. split.
  - intros ->. unfold display. rewrite lookup_insert_eq. reflexivity.
  - intros Hf.
    destruct (display_shows file_format
                (<["final_summary" := Some f]> (session (st (init_session s))))
                f (lookup_insert_eq _ _ _) Hf) as (els & Hshow & Hbuttons).
    exists els. split; [exact Hshow|].
    intros label data file_name mime Hin.
    apply (Hbuttons label data file_name mime Hin).
Qed.

Lemma summary_shown_after_success_witness :
  ∃ final_summary,
    last (chat_responses
            (evs (script (Stub.services (Returned [(1, "one"); (2, "two")]))
                    (Stub.ui General 1 2)
                    (Stub.initial [Returned "s1"; Returned "s2"; Returned "# Title"]))))
      = Some (Returned final_summary) ∧
    (final_summary = "" →
     display "Text File (.txt)"
       (session (st (script (Stub.services (Returned [(1, "one"); (2, "two")]))
                       (Stub.ui General 1 2)
                       (Stub.initial [Returned "s1"; Returned "s2"; Returned "# Title"]))))
       = Returned []) ∧
    (final_summary ≠ "" →
     ∃ els,
       display "Text File (.txt)"
         (session (st (script (Stub.services (Returned [(1, "one"); (2, "two")]))
                         (Stub.ui General 1 2)
                         (Stub.initial [Returned "s1"; Returned "s2"; Returned "# Title"]))))
         = Returned (Subheader "Final Summary" :: Markdown final_summary :: els) ∧
       ∀ label data file_name mime,
         In (DownloadButton label data file_name mime) els →
         data = final_summary).
Proof.
  apply (summary_shown_after_success
           (Stub.services (Returned [(1, "one"); (2, "two")]))
           (Stub.ui General 1 2)
           (Stub.initial [Returned "s1"; Returned "s2"; Returned "# Title"])
           "Text File (.txt)").
  vm_compute. reflexivity.
Defined.

(** After a run that ended with the error status, the summary stored by an
    earlier run is still the one on the page, below the error. *)
Theorem earlier_summary_shown_after_failure
    {World : Type} (svc : services World) (ui : widgets) (s : state World)
    (file_format previous msg : string) :
  session s !! "final_summary" = Some (Some previous) →
  previous ≠ "" →
  last (evs (script svc ui s)) = Some (EvStatus StError msg) →
  ∃ els,
    display file_format (session (st (script svc ui s))) =
      Returned (Subheader "Final Summary" :: Markdown previous :: els).
Proof.
  intros Hprev Hne Hlast.
  destruct (script_session_cases svc ui s) as [[_ Hsess]|[Hdone _]].
  - assert (Hkey : session (st (script svc ui s)) !! "final_summary"
                   = Some (Some previous)).
    { rewrite Hsess.
      apply (proj1 (init_session_keeps_entries_holds s)). exact Hprev. }
    destruct (display_shows file_format _ previous Hkey Hne) as (els & Hshow & _).
    exists els. exact Hshow.
  - rewrite Hdone in Hlast. discriminate Hlast.
Qed.

Lemma earlier_summary_shown_after_failure_witness :
  ∃ els,
    display "Text File (.txt)"
      (session (st (script (Stub.services (Returned [(1, "one"); (2, "two")]))
                      (Stub.ui Research 1 2)
                      (State [Returned "first"; Raised Stub.boom]
                             {["final_summary" := Some "An earlier summary."]}))))
      = Returned (Subheader "Final Summary" :: Markdown "An earlier summary." :: els).
Proof.
  apply (earlier_summary_shown_after_failure
           (Stub.services (Returned [(1, "one"); (2, "two")]))
           (Stub.ui Research 1 2)
           (State [Returned "first"; Raised Stub.boom]
                  {["final_summary" := Some "An earlier summary."]})
           "Text File (.txt)" "An earlier summary."
           "An error occurred: service unavailable").
  - vm_compute. reflexivity.
  - discriminate.
  - vm_compute. reflexivity.
Defined.
